(** * friday-router: task-tier classifier, loop detector, dispatcher and
      gateway watchdog

    A shallow embedding of [scripts/router.py] and
    [scripts/gateway_watchdog.py], followed by the properties of the
    classifier, the model resolver, the troubleshooting-loop detector, the
    dispatcher and the watchdog tick.

    Modelling conventions.
    - A Python [str] is a [string] of 8-bit characters.  [lower], [strip] and
      the regular-expression classes act on the ASCII range the way CPython
      does; characters above 127 are left alone by [lower] and are neither
      white space, digits nor word characters.
    - A Python [dict] is an insertion-ordered association list ([ODict]):
      the classifier's arg-max and the loop detector's scan both depend on
      the iteration order.
    - Counts are [nat]; the two floating-point confidences are idealised as
      rationals ([Q]).
    - Outcomes of external commands, the content of files and the library
      function [json.loads] are inputs of the model. *)

From Stdlib Require Import String Ascii List Bool Arith ZArith QArith Qminmax Lia.
From Stdlib Require Import DecimalString.
Import ListNotations.

Set Implicit Arguments.
Close Scope Q_scope.
Open Scope nat_scope.

(* ================================================================== *)
(** ** Python strings *)

Module PyStr.

Definition code (a : ascii) : nat := nat_of_ascii a.

Definition is_upper (a : ascii) : bool := (65 <=? code a) && (code a <=? 90).

Definition lower_char (a : ascii) : ascii :=
  if is_upper a then ascii_of_nat (code a + 32) else a.

(** [s.lower()] *)
Fixpoint lower (s : string) : string :=
  match s with
  | EmptyString => EmptyString
  | String a s' => String (lower_char a) (lower s')
  end.

(** White space as [str.strip] and the pattern class [\s] see it:
    TAB, LF, VT, FF, CR, the four separators FS..US, and SPACE. *)
Definition is_space (a : ascii) : bool :=
  let n := code a in
  ((9 <=? n) && (n <=? 13)) || ((28 <=? n) && (n <=? 31)) || (n =? 32).

Definition is_digit (a : ascii) : bool := (48 <=? code a) && (code a <=? 57).

(** The pattern class [\w]: letters, digits and the underscore. *)
Definition is_word (a : ascii) : bool :=
  let n := code a in
  ((97 <=? n) && (n <=? 122)) || is_upper a || is_digit a || (n =? 95).

Fixpoint lstrip (s : string) : string :=
  match s with
  | EmptyString => EmptyString
  | String a s' => if is_space a then lstrip s' else s
  end.

Fixpoint rstrip (s : string) : string :=
  match s with
  | EmptyString => EmptyString
  | String a s' =>
      match rstrip s' with
      | EmptyString => if is_space a then EmptyString else String a EmptyString
      | r => String a r
      end
  end.

(** [s.strip()] *)
Definition strip (s : string) : string := rstrip (lstrip s).

(** [needle in hay] *)
Fixpoint contains (needle hay : string) : bool :=
  if String.prefix needle hay then true
  else match hay with
       | EmptyString => false
       | String _ hay' => contains needle hay'
       end.

(** [s[:n]] *)
Fixpoint take (n : nat) (s : string) : string :=
  match n, s with
  | S n', String a s' => String a (take n' s')
  | _, _ => EmptyString
  end.

(** [s.count(c)] for a one-character [c] *)
Fixpoint count_char (c : ascii) (s : string) : nat :=
  match s with
  | EmptyString => 0
  | String a s' => (if Ascii.eqb a c then 1 else 0) + count_char c s'
  end.

(** [bool(s)]: a string is true when it is not empty. *)
Definition truthy (s : string) : bool :=
  match s with EmptyString => false | _ => true end.

End PyStr.

(* ================================================================== *)
(** ** Insertion-ordered dictionaries *)

(** Keys are compared with a boolean equality. *)
Class EqKey (K : Type) := keq : K -> K -> bool.

#[export] Instance EqKey_string : EqKey string := String.eqb.

Module ODict.
Section Dict.
Context {K V : Type} `{EqKey K}.

Definition t := list (K * V).

Definition empty : t := [].

(** [d.get(k)] *)
Fixpoint get (k : K) (d : t) : option V :=
  match d with
  | [] => None
  | (k', v) :: d' => if keq k k' then Some v else get k d'
  end.

(** [d[k] = v]: an existing key keeps its place, a new one goes last. *)
Fixpoint set (k : K) (v : V) (d : t) : t :=
  match d with
  | [] => [(k, v)]
  | (k', v') :: d' =>
      if keq k k' then (k', v) :: d' else (k', v') :: set k v d'
  end.

Definition keys (d : t) : list K := map fst d.
Definition values (d : t) : list V := map snd d.

(** [d.update(e)] *)
Definition update (d e : t) : t :=
  fold_left (fun acc kv => set (fst kv) (snd kv) acc) e d.

(** [{k: v for k, v in d.items() if p(v)}] *)
Definition filter_values (p : V -> bool) (d : t) : t :=
  filter (fun kv => p (snd kv)) d.

End Dict.
End ODict.

(** [max(xs)] over naturals; the source never calls it on an empty list. *)
Definition py_max (xs : list nat) : nat := fold_right Nat.max 0 xs.

(** [max(d, key=d.get)]: the FIRST key, in iteration order, whose value is
    maximal.  [dflt] stands for the exception on an empty dictionary. *)
Fixpoint py_max_key_from {K} (best : K) (bv : nat) (d : list (K * nat)) : K :=
  match d with
  | [] => best
  | (k, v) :: d' =>
      if bv <? v then py_max_key_from k v d' else py_max_key_from best bv d'
  end.

Definition py_max_key {K} (dflt : K) (d : list (K * nat)) : K :=
  match d with
  | [] => dflt
  | (k, v) :: d' => py_max_key_from k v d'
  end.

(* ================================================================== *)
(** ** The fragment of [re] the router uses *)

Module Regex.

Inductive cls := CAny | CSpace | CDigit | CWord.

(** One element of a pattern; every pattern of the source is a
    concatenation of these. *)
Inductive atom :=
| Lit (s : string)      (* literal text *)
| Star (c : cls)        (* c*            *)
| Plus (c : cls)        (* c+            *)
| WordB.                (* \b            *)

Definition re := list atom.

Definition cls_ok (c : cls) (a : ascii) : bool :=
  match c with
  | CAny => negb (Ascii.eqb a "010"%char)
  | CSpace => PyStr.is_space a
  | CDigit => PyStr.is_digit a
  | CWord => PyStr.is_word a
  end.

Definition wordish (o : option ascii) : bool :=
  match o with Some a => PyStr.is_word a | None => false end.

(** [\b] holds between [prev] and the head of [s]. *)
Definition at_boundary (prev : option ascii) (s : list ascii) : bool :=
  xorb (wordish prev) (wordish (hd_error s)).

Fixpoint lit (l : list ascii) (prev : option ascii) (s : list ascii)
         (k : option ascii -> list ascii -> bool) : bool :=
  match l with
  | [] => k prev s
  | c :: l' =>
      match s with
      | a :: s' => if Ascii.eqb a c then lit l' (Some a) s' k else false
      | [] => false
      end
  end.

Fixpoint star (c : cls) (prev : option ascii) (s : list ascii)
         (k : option ascii -> list ascii -> bool) : bool :=
  match s with
  | a :: s' =>
      if cls_ok c a then star c (Some a) s' k || k prev s else k prev s
  | [] => k prev s
  end.

(** Does the pattern match at this position? *)
Fixpoint matches (r : re) (prev : option ascii) (s : list ascii) : bool :=
  match r with
  | [] => true
  | Lit l :: r' => lit (list_ascii_of_string l) prev s (matches r')
  | Star c :: r' => star c prev s (matches r')
  | Plus c :: r' =>
      match s with
      | a :: s' => if cls_ok c a then star c (Some a) s' (matches r') else false
      | [] => false
      end
  | WordB :: r' => if at_boundary prev s then matches r' prev s else false
  end.

Fixpoint search_from (r : re) (prev : option ascii) (s : list ascii) : bool :=
  matches r prev s ||
  match s with
  | a :: s' => search_from r (Some a) s'
  | [] => false
  end.

(** [re.search(r, s) is not None] *)
Definition search (r : re) (s : string) : bool :=
  search_from r None (list_ascii_of_string s).

End Regex.

(* ================================================================== *)
(** ** router.py: the classifier *)

Open Scope string_scope.
Open Scope list_scope.
Open Scope nat_scope.

(** The tier names that occur as keys of [tier_scores] or as a returned
    tier.  The source uses the strings themselves. *)
Inductive Tier :=
  FAST | REASONING | CREATIVE | RESEARCH | CODE | COMPLEX | QUALITY | VISION.

Definition tier_eqb (a b : Tier) : bool :=
  match a, b with
  | FAST, FAST | REASONING, REASONING | CREATIVE, CREATIVE
  | RESEARCH, RESEARCH | CODE, CODE | COMPLEX, COMPLEX
  | QUALITY, QUALITY | VISION, VISION => true
  | _, _ => false
  end.

#[export] Instance EqKey_Tier : EqKey Tier := tier_eqb.

Definition tier_str (t : Tier) : string :=
  match t with
  | FAST => "FAST" | REASONING => "REASONING" | CREATIVE => "CREATIVE"
  | RESEARCH => "RESEARCH" | CODE => "CODE" | COMPLEX => "COMPLEX"
  | QUALITY => "QUALITY" | VISION => "VISION"
  end.

Definition SIMPLE_KEYWORDS : list string :=
  [ "check"; "get"; "fetch"; "list"; "show"; "display"; "status";
    "what is"; "how much"; "tell me"; "find"; "search"; "summarize";
    "monitor"; "watch"; "read"; "look"; "simple"; "quick"; "fast" ].

Definition COMPLEX_KEYWORDS : list string :=
  [ "build"; "create"; "implement"; "architect"; "design"; "system";
    "comprehensive"; "thorough"; "complex"; "multi"; "full-stack";
    "authentication"; "authorization"; "database"; "api"; "service" ].

Definition CODE_KEYWORDS : list string :=
  [ "code"; "function"; "class"; "method"; "debug"; "fix"; "bug";
    "refactor"; "lint"; "test"; "unit"; "integration"; "component";
    "module"; "package"; "library"; "framework"; "import"; "export";
    "react"; "vue"; "angular"; "node"; "python"; "javascript";
    "typescript"; "rust"; "go"; "java"; "api"; "endpoint" ].

Definition REASONING_KEYWORDS : list string :=
  [ "prove"; "theorem"; "proof"; "derive"; "logic"; "reason";
    "analyze"; "reasoning"; "step by step"; "why"; "how does";
    "explain"; "mathematical"; "induction"; "deduction" ].

Definition CREATIVE_KEYWORDS : list string :=
  [ "creative"; "write"; "story"; "poem"; "article"; "blog";
    "design"; "UI"; "UX"; "frontend"; "website"; "landing";
    "copy"; "narrative"; "brainstorm"; "idea"; "concept" ].

Definition RESEARCH_KEYWORDS : list string :=
  [ "research"; "find"; "search"; "lookup"; "web"; "information";
    "fact"; "review"; "compare"; "vs"; "versus"; "difference";
    "summary of"; "what are"; "best"; "top"; "alternatives" ].

Definition AGENTIC_KEYWORDS : list string :=
  [ "run"; "test"; "fix"; "deploy"; "edit"; "build"; "create";
    "implement"; "execute"; "refactor"; "migrate"; "integrate";
    "setup"; "configure"; "install"; "compile"; "debug" ].

Definition vision_keywords : list string :=
  [ "image"; "picture"; "photo"; "screenshot"; "visual"; "see";
    "describe what" ].

Definition website_project_keywords : list string :=
  [ "website"; "web site"; "landing page"; "landing"; "frontend";
    "community site"; "online community"; "build a site"; "new site" ].

(** [sum(1 for kw in keywords if kw.lower() in text.lower())] *)
Definition _keyword_match (text : string) (keywords : list string) : nat :=
  let text_lower := PyStr.lower text in
  length (filter (fun kw => PyStr.contains (PyStr.lower kw) text_lower) keywords).

Import Regex.

(** [r'\bfirst\b.*\bthen\b', r'\bstep\s+\d+', r'\d+\.\s+\w+', r'\bnext\b',
     r'\bafter\b', r'\bfinally\b', r',\s*then\b'] *)
Definition multi_step_patterns : list re :=
  [ [WordB; Lit "first"; WordB; Star CAny; WordB; Lit "then"; WordB];
    [WordB; Lit "step"; Plus CSpace; Plus CDigit];
    [Plus CDigit; Lit "."; Plus CSpace; Plus CWord];
    [WordB; Lit "next"; WordB];
    [WordB; Lit "after"; WordB];
    [WordB; Lit "finally"; WordB];
    [Lit ","; Star CSpace; Lit "then"; WordB] ].

Record Classification := {
  tier : Tier;
  confidence : Q;
  tier_scores : ODict.t (K:=Tier) (V:=nat);
  is_agentic : bool
}.

(** [tier_scores[k]]; every key the source reads has been stored before. *)
Definition score (ts : ODict.t) (k : Tier) : nat :=
  match ODict.get k ts with Some v => v | None => 0 end.

Definition of_nat_Q (n : nat) : Q := inject_Z (Z.of_nat n).

(** Rounding to the nearest integer, ties to even. *)
Definition round_half_even (q : Q) : Z :=
  let n := Qnum q in
  let d := Zpos (Qden q) in
  let f := (n / d)%Z in
  match (2 * (n mod d) ?= d)%Z with
  | Lt => f
  | Gt => (f + 1)%Z
  | Eq => if Z.even f then f else (f + 1)%Z
  end.

(** [round(q, 3)] *)
Definition py_round3 (q : Q) : Q :=
  Qmake (round_half_even (q * inject_Z 1000)%Q) 1000.

(** Lines 163-176: the keyword tallies, in the order they are stored. *)
Definition raw_scores (task_description : string) : ODict.t :=
  let tier_scores := ODict.empty in
  let tier_scores := ODict.set FAST (_keyword_match task_description SIMPLE_KEYWORDS) tier_scores in
  let tier_scores := ODict.set REASONING (_keyword_match task_description REASONING_KEYWORDS) tier_scores in
  let tier_scores := ODict.set CREATIVE (_keyword_match task_description CREATIVE_KEYWORDS) tier_scores in
  let tier_scores := ODict.set RESEARCH (_keyword_match task_description RESEARCH_KEYWORDS) tier_scores in
  let tier_scores := ODict.set CODE (_keyword_match task_description CODE_KEYWORDS) tier_scores in
  let tier_scores := ODict.set COMPLEX (_keyword_match task_description COMPLEX_KEYWORDS) tier_scores in
  let vision_matches := _keyword_match task_description vision_keywords in
  ODict.set VISION vision_matches tier_scores.

(** Lines 188-193: [agentic_count >= 2 or is_multi_step]. *)
Definition agentic_count (task_description : string) : nat :=
  _keyword_match task_description AGENTIC_KEYWORDS.

Definition is_multi_step (task_description : string) : bool :=
  let text := PyStr.lower task_description in
  existsb (fun p => Regex.search p text) multi_step_patterns.

Definition agentic (task_description : string) : bool :=
  (2 <=? agentic_count task_description) || is_multi_step task_description.

(** Lines 195-199: the agentic adjustment of the tallies. *)
Definition agentic_adjust (is_agentic : bool) (tier_scores : ODict.t) : ODict.t :=
  if is_agentic then
    let tier_scores := ODict.set CODE (score tier_scores CODE + 2) tier_scores in
    if 0 <? score tier_scores FAST then ODict.set FAST 0 tier_scores
    else tier_scores
  else tier_scores.

(** Lines 201-227: from the adjusted tallies to the tier. *)
Definition select_tier (task_description : string) (tier_scores : ODict.t) : Tier :=
  let best_tier :=
    if py_max (ODict.values tier_scores) =? 0 then FAST
    else py_max_key FAST tier_scores in
  let best_tier :=
    if 0 <? _keyword_match task_description website_project_keywords
    then CREATIVE else best_tier in
  let best_tier :=
    if tier_eqb best_tier COMPLEX then
      if 0 <? score tier_scores CODE then CODE else QUALITY
    else best_tier in
  let best_tier :=
    if (0 <? score tier_scores COMPLEX) && (0 <? score tier_scores FAST) then
      if score tier_scores FAST <=? score tier_scores COMPLEX then
        if 2 <=? score tier_scores COMPLEX then QUALITY else CODE
      else best_tier
    else best_tier in
  best_tier.

(** [classify_task(task_description, return_details=True)] *)
Definition classify_details (task_description : string) : Classification :=
  let tier_scores := raw_scores task_description in
  let vision_matches := _keyword_match task_description vision_keywords in
  if 0 <? vision_matches then
    {| tier := VISION;
       confidence := Qmin (of_nat_Q vision_matches / 3) 1;
       tier_scores := ODict.set VISION vision_matches ODict.empty;
       is_agentic := false |}
  else
    let tier_scores := agentic_adjust (agentic task_description) tier_scores in
    let best_tier := select_tier task_description tier_scores in
    let max_score := py_max (ODict.values tier_scores) in
    let confidence := Qmin (of_nat_Q max_score / 5) 1 in
    {| tier := best_tier;
       confidence := py_round3 confidence;
       tier_scores := ODict.filter_values (fun v => 0 <? v) tier_scores;
       is_agentic := agentic task_description |}.

(** [classify_task]: the vision exit (lines 179-185) returns the details
    whatever [return_details] is; past it, the tier alone is returned unless
    [return_details] is set (lines 240-243). *)
Definition classify_task (task_description : string) (return_details : bool)
  : Tier + Classification :=
  let vision_matches := _keyword_match task_description vision_keywords in
  if 0 <? vision_matches then inr (classify_details task_description)
  else
    let result := classify_details task_description in
    if return_details then inr result else inl (tier result).

(** The tier held by what [classify_task] returned, be it the bare tier or
    the details. *)
Definition returned_tier (r : Tier + Classification) : Tier :=
  match r with inl t => t | inr c => tier c end.

(* ================================================================== *)
(** ** JSON values, as [json.loads] hands them to the scripts *)

#[local] Set Warnings "-register-all".
Inductive json :=
| JNull                                  (* None  *)
| JBool (b : bool)
| JInt (z : Z)
| JFloat (q : Q)
| JStr (s : string)
| JArr (l : list json)
| JObj (d : list (string * json)).       (* dict  *)

(** The exceptions that can leave the modelled functions. *)
Inductive exn :=
| AttributeError
| TypeError
| ValueError (msg : string)
| JSONDecodeError
| UnicodeDecodeError
| TimeoutExpiredError
| FileNotFoundErr (msg : string)
| OtherError (msg : string).

Module Py.

(** [bool(v)] *)
Definition truthy (v : json) : bool :=
  match v with
  | JNull => false
  | JBool b => b
  | JInt z => negb (z =? 0)%Z
  | JFloat q => negb (Qeq_bool q 0)
  | JStr s => PyStr.truthy s
  | JArr l => match l with [] => false | _ => true end
  | JObj d => match d with [] => false | _ => true end
  end.

(** [v.get(k, dflt)]: only a dict has [get]; a stored [null] is [None]
    like a missing key read with the default [None]. *)
Definition get (v : json) (k : string) (dflt : json) : exn + json :=
  match v with
  | JObj d => inr (match ODict.get k d with Some x => x | None => dflt end)
  | _ => inl AttributeError
  end.

(** [a or b] *)
Definition or (a b : json) : json := if truthy a then a else b.

(** [v == s] for a string literal [s] *)
Definition eq_str (v : json) (s : string) : bool :=
  match v with JStr x => String.eqb x s | _ => false end.

Definition is_none (v : json) : bool :=
  match v with JNull => true | _ => false end.

(** [int(s)] on a string: optional blanks, an optional sign, decimal
    digits with single underscores between them. *)
Fixpoint digits (acc : Z) (need_digit : bool) (s : string) : option Z :=
  match s with
  | EmptyString => if need_digit then None else Some acc
  | String a s' =>
      if PyStr.is_digit a
      then digits (10 * acc + Z.of_nat (PyStr.code a - 48))%Z false s'
      else if Ascii.eqb a "_"%char
           then (if need_digit then None else digits acc true s')
           else None
  end.

Definition int_of_str (s : string) : option Z :=
  match PyStr.strip s with
  | String "-" r => option_map Z.opp (digits 0 true r)
  | String "+" r => digits 0 true r
  | r => digits 0 true r
  end.

(** [int(v)] *)
Definition int (v : json) : exn + Z :=
  match v with
  | JInt z => inr z
  | JBool b => inr (if b then 1 else 0)%Z
  | JFloat q => inr (Z.quot (Qnum q) (Zpos (Qden q)))
  | JStr s => match int_of_str s with
              | Some z => inr z
              | None => inl (ValueError "invalid literal for int()")
              end
  | _ => inl TypeError
  end.

(** Sequencing of computations that may raise. *)
Definition bind {A B} (m : exn + A) (f : A -> exn + B) : exn + B :=
  match m with inl e => inl e | inr a => f a end.

End Py.

Notation "x <- m ;; k" := (Py.bind m (fun x => k))
  (at level 61, m at next level, right associativity).

(** The line feed, the double quote, and a string between double quotes. *)
Definition nl : string := String "010"%char EmptyString.
Definition dq : string := String "034"%char EmptyString.
Definition quoted (s : string) : string := (dq ++ s ++ dq)%string.

(** A reader for the fragment of JSON without escapes, fractions and
    exponents; it stands in for [json.loads] where a concrete document is
    evaluated.  [None] is [JSONDecodeError]. *)
Module MiniJson.

Definition is_ws (a : ascii) : bool :=
  let n := PyStr.code a in (n =? 32) || (n =? 9) || (n =? 10) || (n =? 13).

Fixpoint skip_ws (s : list ascii) : list ascii :=
  match s with
  | a :: s' => if is_ws a then skip_ws s' else s
  | [] => []
  end.

Fixpoint read_string (acc : string) (s : list ascii) : option (string * list ascii) :=
  match s with
  | [] => None
  | a :: s' =>
      if Ascii.eqb a "034"%char then Some (acc, s')
      else if Ascii.eqb a "\"%char || (PyStr.code a <? 32) then None
      else read_string (acc ++ String a EmptyString)%string s'
  end.

Fixpoint read_digits (acc : Z) (s : list ascii) : Z * list ascii :=
  match s with
  | a :: s' =>
      if PyStr.is_digit a
      then read_digits (10 * acc + Z.of_nat (PyStr.code a - 48))%Z s'
      else (acc, s)
  | [] => (acc, [])
  end.

Definition starts_number_tail (s : list ascii) : bool :=
  match s with
  | a :: _ => Ascii.eqb a "."%char || Ascii.eqb a "e"%char || Ascii.eqb a "E"%char
  | [] => false
  end.

Definition read_int (s : list ascii) : option (Z * list ascii) :=
  match s with
  | "0"%char :: r =>
      match r with
      | a :: _ => if PyStr.is_digit a || starts_number_tail r then None else Some (0%Z, r)
      | [] => Some (0%Z, [])
      end
  | a :: _ =>
      if PyStr.is_digit a then
        let '(z, r) := read_digits 0 s in
        if starts_number_tail r then None else Some (z, r)
      else None
  | [] => None
  end.

Fixpoint value (fuel : nat) (s : list ascii) {struct fuel}
  : option (json * list ascii) :=
  match fuel with
  | 0 => None
  | S fuel' =>
      match skip_ws s with
      | "n" :: "u" :: "l" :: "l" :: r => Some (JNull, r)
      | "t" :: "r" :: "u" :: "e" :: r => Some (JBool true, r)
      | "f" :: "a" :: "l" :: "s" :: "e" :: r => Some (JBool false, r)
      | "034" :: r =>
          match read_string EmptyString r with
          | Some (x, r') => Some (JStr x, r')
          | None => None
          end
      | "-" :: r =>
          match read_int r with
          | Some (z, r') => Some (JInt (- z), r')
          | None => None
          end
      | "[" :: r =>
          match skip_ws r with
          | "]" :: r' => Some (JArr [], r')
          | _ => elements fuel' [] r
          end
      | "{" :: r =>
          match skip_ws r with
          | "}" :: r' => Some (JObj [], r')
          | _ => members fuel' [] r
          end
      | r =>
          match read_int r with
          | Some (z, r') => Some (JInt z, r')
          | None => None
          end
      end%char
  end
with elements (fuel : nat) (acc : list json) (s : list ascii) {struct fuel}
  : option (json * list ascii) :=
  match fuel with
  | 0 => None
  | S fuel' =>
      match value fuel' s with
      | Some (v, r) =>
          match skip_ws r with
          | "," :: r' => elements fuel' (acc ++ [v]) r'
          | "]" :: r' => Some (JArr (acc ++ [v]), r')
          | _ => None
          end%char
      | None => None
      end
  end
with members (fuel : nat) (acc : list (string * json)) (s : list ascii)
  {struct fuel} : option (json * list ascii) :=
  match fuel with
  | 0 => None
  | S fuel' =>
      match skip_ws s with
      | "034" :: r =>
          match read_string EmptyString r with
          | Some (k, r1) =>
              match skip_ws r1 with
              | ":" :: r2 =>
                  match value fuel' r2 with
                  | Some (v, r3) =>
                      match skip_ws r3 with
                      | "," :: r4 => members fuel' (ODict.set k v acc) r4
                      | "}" :: r4 => Some (JObj (ODict.set k v acc), r4)
                      | _ => None
                      end
                  | None => None
                  end
              | _ => None
              end
          | None => None
          end
      | _ => None
      end%char
  end.

Definition loads (s : string) : option json :=
  let cs := list_ascii_of_string s in
  match value (2 * List.length cs + 2) cs with
  | Some (v, r) => match skip_ws r with [] => Some v | _ => None end
  | None => None
  end.

End MiniJson.

(* ================================================================== *)
(** ** router.py: configuration and model resolution *)

Record ModelDescriptor := {
  id : string;
  alias : string;
  model_tier : string;
  input_cost_per_m : Q;
  output_cost_per_m : Q;
  use_for : list string
}.

(** One entry of [routing_rules]; [primary] is [None] when the key is
    absent, [fallback] is empty when it is. *)
Record RoutingRule := {
  primary : option string;
  fallback : list string
}.

Record Config := {
  default_model : option string;
  models : list ModelDescriptor;
  routing_rules : ODict.t (K:=string) (V:=RoutingRule)
}.

Record Recommendation := {
  rec_tier : Tier;
  rec_model : option ModelDescriptor;
  rec_fallback : option ModelDescriptor;
  rec_classification : Classification;
  rec_reasoning : string
}.

(** [for m in models: if m['id'] == wanted: ...; break] *)
Definition find_model (models : list ModelDescriptor) (wanted : option string)
  : option ModelDescriptor :=
  match wanted with
  | Some w => find (fun m => String.eqb (id m) w) models
  | None => None
  end.

Definition _explain (tier : Tier) (classification : Classification) : string :=
  let explanation :=
    match tier with
    | FAST => "Simple, quick task - monitoring, checks, summaries"
    | REASONING => "Logical analysis, math, step-by-step reasoning"
    | CREATIVE => "Creative writing, design, frontend work"
    | RESEARCH => "Information lookup, web search, fact-finding"
    | CODE => "Code generation, debugging, implementation"
    | COMPLEX => "Code generation, debugging, implementation"
    | QUALITY => "Complex, comprehensive, architectural work"
    | VISION => "Image analysis, visual understanding"
    end in
  if is_agentic classification
  then (explanation ++ " [Multi-step agentic task detected]")%string
  else explanation.

(** The fallback loop of [recommend_model]: the outer loop visits every
    id; the inner loop stops at the first model carrying that id and stores
    it in [fallback]. *)
Definition resolve_fallback (models : list ModelDescriptor)
           (fallback_ids : list string) : option ModelDescriptor :=
  fold_left
    (fun fallback fb_id =>
       match find_model models (Some fb_id) with
       | Some m => Some m
       | None => fallback
       end)
    fallback_ids None.

Definition recommend_model (config : Config) (task_description : string)
  : Recommendation :=
  let classification := classify_details task_description in
  let tier := tier classification in
  let tier_rules :=
    match ODict.get (tier_str tier) (routing_rules config) with
    | Some r => r
    | None => {| primary := None; fallback := [] |}
    end in
  let primary_id := primary tier_rules in
  let model := find_model (models config) primary_id in
  let fallback := resolve_fallback (models config) (fallback tier_rules) in
  {| rec_tier := tier;
     rec_model := model;
     rec_fallback := fallback;
     rec_classification := classification;
     rec_reasoning := _explain tier classification |}.

(* ================================================================== *)
(** ** router.py: the troubleshooting-loop detector *)

(** What [gateway.log] looks like to the detector. *)
Inductive LogFile :=
| LogAbsent                       (* the file does not exist *)
| LogUnreadable                   (* open or read raises OSError *)
| LogUndecodable                  (* [f.readlines()] raises UnicodeDecodeError *)
| LogLines (lines : list string). (* [f.readlines()] *)

Definition error_keywords : list string :=
  [ "error"; "failed"; "exception"; "traceback"; "unhandled";
    "device_token_mismatch"; "unauthorized"; "timeout";
    "connection refused"; "socket error" ].

Definition troubleshooting_keywords : list string :=
  [ "fix"; "debug"; "error"; "issue"; "problem"; "troubleshoot" ].

Definition nat_str (n : nat) : string := NilEmpty.string_of_uint (Nat.to_uint n).

(** [xs[-n:]] *)
Definition last_n {A} (n : nat) (xs : list A) : list A :=
  skipn (List.length xs - n) xs.

(** [error_patterns[pattern] += 1] on a [defaultdict(int)] *)
Definition bump (pattern : string) (error_patterns : ODict.t) : ODict.t :=
  let old := match ODict.get pattern error_patterns with
             | Some c => c | None => 0 end in
  ODict.set pattern (old + 1) error_patterns.

(** The body of [for line in recent_lines]: one increment for EACH keyword
    found in the line. *)
Definition tally_line (error_patterns : ODict.t) (line : string) : ODict.t :=
  let line_lower := PyStr.lower line in
  fold_left
    (fun error_patterns keyword =>
       if PyStr.contains keyword line_lower
       then bump (PyStr.take 100 (PyStr.strip line)) error_patterns
       else error_patterns)
    error_keywords error_patterns.

Definition tally (recent_lines : list string) : ODict.t :=
  fold_left tally_line recent_lines ODict.empty.

(** The log-based check: the first pattern, in insertion order, counted at
    least three times.  A missing file and an OSError give no signal; a log
    that cannot be decoded raises, since [except (OSError, IOError)] does
    not catch UnicodeDecodeError. *)
Definition log_check (log : LogFile) : exn + option string :=
  match log with
  | LogLines lines =>
      let recent_lines := last_n 200 lines in
      let error_patterns := tally recent_lines in
      match find (fun pc => 3 <=? snd pc) error_patterns with
      | Some (pattern, count) =>
          inr (Some ("Repeated error detected: " ++ PyStr.take 50 pattern
                     ++ "... (" ++ nat_str count ++ " times)")%string)
      | None => inr None
      end
  | LogAbsent | LogUnreadable => inr None
  | LogUndecodable => inl UnicodeDecodeError
  end.

Definition spaces (s : string) : Z := Z.of_nat (PyStr.count_char " "%char s).

(** The history-based check. *)
Definition history_check (task : string) (recent_tasks : list string)
  : option string :=
  let task_normalized := PyStr.strip (PyStr.lower task) in
  if existsb (fun kw => PyStr.contains kw task_normalized) troubleshooting_keywords
  then
    let similar_tasks :=
      filter (fun t => (Z.abs (spaces task_normalized - spaces t) <=? 2)%Z)
             recent_tasks in
    if 2 <=? List.length similar_tasks
    then Some ("Similar troubleshooting task attempted "
               ++ nat_str (List.length similar_tasks) ++ " times recently")%string
    else None
  else None.

(** [_detect_troubleshooting_loop]: [(True, reason)] or [(False, None)],
    or the exception of the log read. *)
Definition _detect_troubleshooting_loop (log : LogFile)
           (recent_tasks : list string) (task : string)
  : exn + (bool * option string) :=
  match log_check log with
  | inl e => inl e
  | inr (Some reason) => inr (true, Some reason)
  | inr None =>
      match history_check task recent_tasks with
      | Some reason => inr (true, Some reason)
      | None => inr (false, None)
      end
  end.

(* ================================================================== *)
(** ** router.py: diagnosis escalation, dispatch and the spawn output *)

(** How a child process ends for its caller. *)
Inductive proc :=
| Completed (returncode : option Z) (stdout stderr : string)
| TimeoutExpired
| FileNotFoundError (msg : string)
| OtherException (msg : string).

(** The gateway configuration file [openclaw.json]. *)
Inductive ConfigFile :=
| FileMissing                 (* [config_path.exists()] is false *)
| FileUnreadable              (* [open] or [read] raises OSError *)
| FileUndecodable             (* [json.load] raises UnicodeDecodeError *)
| FileContent (text : string).

(** What [spawn_agent] returns: the FACEPALM diagnosis or the routing. *)
Inductive SpawnResult :=
| Diagnosed (params : ODict.t (K:=string) (V:=json)) (rec_tier : Tier)
            (model_id model_alias : string) (facepalm_diagnosis : json)
| Routed (params : ODict.t (K:=string) (V:=json)) (recommendation : Recommendation).

Definition result_params (r : SpawnResult) : ODict.t :=
  match r with Diagnosed p _ _ _ _ => p | Routed p _ => p end.

(** The dispatcher's state and the text written to standard error. *)
Record Router := {
  recent_tasks : list string;
  stderr_out : list string
}.

Section Dispatch.

(** [json.loads]; [None] is [JSONDecodeError]. *)
Variable json_loads : string -> option json.
(** [str(v)] for a value that is not a string. *)
Variable py_str : json -> string.

(** [f"{v}"] *)
Definition fmt (v : json) : string :=
  match v with JStr s => s | _ => py_str v end.

(** [_invoke_facepalm]: [(diagnosis, error)], with [JNull] for [None]. *)
Definition _invoke_facepalm (script_exists : bool) (run : proc)
  : json * option string :=
  if negb script_exists then (JNull, Some "FACEPALM script not found")
  else
    match run with
    | Completed returncode stdout stderr =>
        match returncode with
        | Some 0%Z =>
            match json_loads stdout with
            | Some diagnosis => (diagnosis, None)
            | None =>
                (JObj [("diagnosis", JStr stdout); ("raw_output", JBool true)],
                 None)
            end
        | _ =>
            (JNull,
             Some ("FACEPALM error: "
                   ++ (if PyStr.truthy stderr then stderr else stdout))%string)
        end
    | TimeoutExpired => (JNull, Some "FACEPALM timeout")
    | FileNotFoundError msg | OtherException msg => (JNull, Some ("FACEPALM exception: " ++ msg)%string)
    end.

Definition codex : string := "openrouter/openai/gpt-5.3-codex".

(** [self.recent_tasks.append(...)] followed by [[-10:]]. *)
Definition track (task : string) (recent_tasks : list string) : list string :=
  last_n 10 (recent_tasks ++ [PyStr.strip (PyStr.lower task)]).

(** [spawn_agent]: the result or the exception, and the router after the
    call.  An exception of the loop detection leaves before anything else is
    done. *)
Definition spawn_agent (config : Config) (log : LogFile)
           (facepalm_exists : bool) (facepalm_run : proc)
           (self : Router)
           (task session_target : string) (label : option string)
  : (exn + SpawnResult) * Router :=
  match _detect_troubleshooting_loop log (recent_tasks self) task with
  | inl e => (inl e, self)
  | inr (is_loop, loop_reason) =>
  let '(diagnosis, error) :=
    if is_loop then _invoke_facepalm facepalm_exists facepalm_run
    else (JNull, None) in
  if is_loop && Py.truthy diagnosis then
    (text <- Py.get diagnosis "diagnosis" (JStr (py_str diagnosis)) ;;
     inr (Diagnosed
            [("task",
              JStr ("FACEPALM Diagnosis: "
                    ++ match loop_reason with Some r => r | None => "None" end
                    ++ nl ++ nl ++ fmt text)%string);
             ("model", JStr codex);
             ("sessionTarget", JStr session_target);
             ("facepalm_invoked", JBool true)]
            CODE codex "Codex-5.3" diagnosis),
     self)
  else
    let self :=
      if is_loop then
        {| recent_tasks := recent_tasks self;
           stderr_out :=
             stderr_out self ++
             [("Warning: Troubleshooting loop detected but FACEPALM failed: "
               ++ match error with Some e => e | None => "None" end)%string] |}
      else self in
    let recommendation := recommend_model config task in
    match rec_model recommendation with
    | None =>
        (inl (ValueError ("No model found for tier: "
                          ++ tier_str (rec_tier recommendation))%string),
         self)
    | Some model =>
        let self :=
          {| recent_tasks := track task (recent_tasks self);
             stderr_out := stderr_out self |} in
        let params :=
          [("task", JStr task);
           ("model", JStr (id model));
           ("sessionTarget", JStr session_target)] in
        let params :=
          match label with
          | Some l => if PyStr.truthy l then ODict.set "label" (JStr l) params
                      else params
          | None => params
          end in
        (inr (Routed params recommendation), self)
    end
  end.

(** [get_openclaw_gateway_config]; [except (json.JSONDecodeError, OSError)]
    lets the UnicodeDecodeError of a file that is not text through. *)
Definition get_openclaw_gateway_config (file : ConfigFile)
  : exn + ODict.t (K:=string) (V:=json) :=
  match file with
  | FileMissing => inr ODict.empty
  | FileUnreadable => inr ODict.empty
  | FileUndecodable => inl UnicodeDecodeError
  | FileContent text =>
      match json_loads text with
      | None => inr ODict.empty
      | Some data =>
          g <- Py.get data "gateway" JNull ;;
          let gateway := Py.or g (JObj []) in
          a <- Py.get gateway "auth" JNull ;;
          let auth := Py.or a (JObj []) in
          auth_mode <- Py.get auth "mode" JNull ;;
          token <- (if Py.eq_str auth_mode "token"
                    then Py.get auth "token" JNull else inr JNull) ;;
          password <- (if Py.eq_str auth_mode "password"
                       then Py.get auth "password" JNull else inr JNull) ;;
          port <- Py.get gateway "port" JNull ;;
          let out := ODict.empty in
          let out := if Py.truthy token
                     then ODict.set "gatewayToken" token out else out in
          let out := if Py.truthy password
                     then ODict.set "gatewayPassword" password out else out in
          let out := if Py.eq_str auth_mode "token" || Py.eq_str auth_mode "password"
                     then ODict.set "gatewayAuthMode" auth_mode out else out in
          if Py.is_none port then inr out
          else (p <- Py.int port ;; inr (ODict.set "gatewayPort" (JInt p) out))
      end
  end.

(** The [spawn --json] branch of [main], after [spawn_agent] returned
    [result]: the object handed to [json.dumps]. *)
Definition main_spawn_json (result : SpawnResult) (file : ConfigFile)
  : exn + ODict.t (K:=string) (V:=json) :=
  let out := result_params result in
  gateway_config <- get_openclaw_gateway_config file ;;
  inr (ODict.update out gateway_config).

End Dispatch.

(* ================================================================== *)
(** ** gateway_watchdog.py *)

Module Watchdog.

(** The lines [_log] writes, by kind. *)
Inductive log_msg :=
| GuardNotFound (guard : string)       (* guard script not found: ...      *)
| StatusCheckFailed (e : exn)          (* status check failed: ...         *)
| StatusFailedRecovery                 (* status check failed, running recovery *)
| NotOkRecovery (reason : json)        (* gateway not ok (reason=...), running recovery *)
| EnsureApply (out : string)           (* ensure --apply: ...              *)
| EnsureTimedOut                       (* ensure --apply timed out         *)
| StartedGateway                       (* started openclaw gateway         *)
| OpenclawNotFound.                    (* openclaw not found in PATH       *)

(** What a tick does to the outside: log lines and commands. *)
Inductive event :=
| Log (m : log_msg)
| Run (cmd : list string) (timeout : nat)   (* [_run(cmd, timeout)]  *)
| Popen (cmd : list string).                (* [subprocess.Popen(cmd, ...)] *)

(** A computation: the events so far, then a value or an exception. *)
Definition M (A : Type) : Type := list event * (exn + A).

Definition ret {A} (a : A) : M A := ([], inr a).
Definition raise {A} (e : exn) : M A := ([], inl e).
Definition emit (ev : event) : M unit := ([ev], inr tt).
Definition bind {A B} (m : M A) (f : A -> M B) : M B :=
  match m with
  | (tr, inl e) => (tr, inl e)
  | (tr, inr a) => let '(tr', r) := f a in (tr ++ tr', r)
  end.
Definition lift {A} (r : exn + A) : M A := ([], r).

(** [try: m  except <caught>: handler] *)
Definition catch {A} (m : M A) (handler : exn -> option (M A)) : M A :=
  match m with
  | (tr, inl e) =>
      match handler e with
      | Some h => let '(tr', r) := h in (tr ++ tr', r)
      | None => (tr, inl e)
      end
  | ok => ok
  end.

Notation "x <~ m ;; k" := (bind m (fun x => k))
  (at level 61, m at next level, right associativity).
Notation "m ;; k" := (bind m (fun _ => k))
  (at level 61, right associativity).

(** How [subprocess.Popen(["openclaw", "gateway"], ...)] ends: the process
    is started, the executable is not found, or another error of the
    operating system (PermissionError and the like) is raised. *)
Inductive launch :=
| Launched
| LaunchNotFound
| LaunchError (msg : string).

(** What one tick meets outside the process. *)
Record World := {
  python : string;              (* [sys.executable]            *)
  guard : string;               (* [str(_guard_script())]      *)
  guard_exists : bool;          (* [guard.exists()]            *)
  status_run : proc;            (* the status command of [check_status] *)
  recovery_status_run : proc;   (* the status command of [run_recovery] *)
  ensure_run : proc;            (* the ensure command          *)
  gateway_launch : launch       (* the outcome of [Popen]      *)
}.

(** [_run(cmd, timeout)]: the completed process, or the exception. *)
Definition _run (cmd : list string) (timeout : nat) (outcome : proc)
  : M (option Z * string) :=
  emit (Run cmd timeout) ;;
  match outcome with
  | Completed returncode stdout _ => ret (returncode, stdout)
  | TimeoutExpired => raise TimeoutExpiredError
  | FileNotFoundError msg => raise (FileNotFoundErr msg)
  | OtherException msg => raise (OtherError msg)
  end.

Definition status_cmd (w : World) : list string :=
  [python w; guard w; "status"; "--json"].
Definition ensure_cmd (w : World) : list string :=
  [python w; guard w; "ensure"; "--apply"; "--json"].
Definition gateway_cmd : list string := ["openclaw"; "gateway"].

Section Tick.

(** [json.loads]; [None] is [JSONDecodeError]. *)
Variable json_loads : string -> option json.

Definition loads (s : string) : M json :=
  match json_loads s with
  | Some v => ret v
  | None => raise JSONDecodeError
  end.

(** [check_status]: the parsed result, [JNull] for [None]. *)
Definition check_status (w : World) : M json :=
  if negb (guard_exists w) then
    emit (Log (GuardNotFound (guard w))) ;;
    ret JNull
  else
    catch
      (r <~ _run (status_cmd w) 12 (status_run w) ;;
       let '(returncode, stdout) := r in
       if match returncode with None => true | Some _ => false end
          || negb (PyStr.truthy (PyStr.strip stdout))
       then ret JNull
       else loads (PyStr.strip stdout))
      (fun e =>
         match e with
         | JSONDecodeError | TimeoutExpiredError | FileNotFoundErr _ =>
             Some (emit (Log (StatusCheckFailed e)) ;; ret JNull)
         | _ => None
         end).

(** [run_recovery] *)
Definition run_recovery (w : World) : M unit :=
  catch
         (_run (status_cmd w) 12 (recovery_status_run w) ;; ret tt)
         (fun e => match e with
                   | TimeoutExpiredError => Some (ret tt)
                   | _ => None
                   end) ;;
  catch
         (r <~ _run (ensure_cmd w) 25 (ensure_run w) ;;
          if PyStr.truthy (snd r)
          then emit (Log (EnsureApply (PyStr.take 200 (PyStr.strip (snd r)))))
          else ret tt)
         (fun e => match e with
                   | TimeoutExpiredError => Some (emit (Log EnsureTimedOut))
                   | _ => None
                   end) ;;
  emit (Popen gateway_cmd) ;;
  match gateway_launch w with
  | Launched => emit (Log StartedGateway)
  | LaunchNotFound => emit (Log OpenclawNotFound)
  | LaunchError msg => raise (OtherError msg)
  end.

(** One turn of the [while] loop of [main], up to the sleep. *)
Definition tick (w : World) : M unit :=
  result <~ check_status w ;;
  if Py.is_none result then
    emit (Log StatusFailedRecovery) ;;
    run_recovery w
  else
    ok <~ lift (Py.get result "ok" (JBool false)) ;;
    if negb (Py.truthy ok) then
      reason <~ lift (Py.get result "reason" (JStr "?")) ;;
      emit (Log (NotOkRecovery reason)) ;;
      run_recovery w
    else ret tt.

End Tick.

(** The commands among the events. *)
Definition is_cmd (ev : event) : bool :=
  match ev with Log _ => false | _ => true end.
Definition cmds {A} (m : M A) : list event := filter is_cmd (fst m).

End Watchdog.

(* ================================================================== *)
(** ** Reference notions used by the statements *)

(** The scoring and probe categories, in the order [classify_task] stores
    them in [tier_scores]. *)
Definition categories : list Tier :=
  [FAST; REASONING; CREATIVE; RESEARCH; CODE; COMPLEX; VISION].

(** The tiers a caller may see. *)
Definition public_tiers : list Tier :=
  [VISION; FAST; REASONING; CREATIVE; RESEARCH; CODE; QUALITY].

(** The raw case-insensitive keyword-hit count of a category. *)
Definition raw_count (task : string) (c : Tier) : nat :=
  match c with
  | FAST => _keyword_match task SIMPLE_KEYWORDS
  | REASONING => _keyword_match task REASONING_KEYWORDS
  | CREATIVE => _keyword_match task CREATIVE_KEYWORDS
  | RESEARCH => _keyword_match task RESEARCH_KEYWORDS
  | CODE => _keyword_match task CODE_KEYWORDS
  | COMPLEX => _keyword_match task COMPLEX_KEYWORDS
  | VISION => _keyword_match task vision_keywords
  | QUALITY => 0
  end.

(** The count of a category once the agentic rule has been applied: for an
    agentic task CODE gains 2 and FAST is cleared. *)
Definition adjusted_count (task : string) (c : Tier) : nat :=
  if agentic task then
    match c with
    | FAST => 0
    | CODE => raw_count task CODE + 2
    | _ => raw_count task c
    end
  else raw_count task c.

(** The website keywords occur in the task. *)
Definition has_website_keyword (task : string) : bool :=
  0 <? _keyword_match task website_project_keywords.

(** The task takes the vision exit of [classify_task]. *)
Definition on_vision_path (task : string) : bool :=
  0 <? _keyword_match task vision_keywords.

(** The COMPLEX-versus-FAST rule of lines 225-227 fires. *)
Definition complex_fast_rule_fires (task : string) : bool :=
  (0 <? adjusted_count task COMPLEX) && (0 <? adjusted_count task FAST)
  && (adjusted_count task FAST <=? adjusted_count task COMPLEX).

(** An id of the fallback list names a configured model. *)
Definition resolvable (models : list ModelDescriptor) (fb_id : string) : bool :=
  match find_model models (Some fb_id) with Some _ => true | None => false end.

(** A line the loop detector counts: it contains an error keyword. *)
Definition is_error_line (line : string) : bool :=
  existsb (fun kw => PyStr.contains kw (PyStr.lower line)) error_keywords.

(** The key a line is tallied under. *)
Definition line_key (line : string) : string :=
  PyStr.take 100 (PyStr.strip line).

(** How often an error line with this key occurs among the lines. *)
Definition occurrences (key : string) (lines : list string) : nat :=
  List.length
    (filter (fun l => is_error_line l && String.eqb (line_key l) key) lines).

(** [spawn_agent] reaches its normal routing: the loop detection returned,
    and no loop was detected or the diagnosis came back empty. *)
Definition on_normal_path (json_loads : string -> option json)
           (log : LogFile) (facepalm_exists : bool) (facepalm_run : proc)
           (self : Router) (task : string) : bool :=
  match _detect_troubleshooting_loop log (recent_tasks self) task with
  | inl _ => false
  | inr (is_loop, _) =>
      negb (is_loop
            && Py.truthy (fst (_invoke_facepalm json_loads facepalm_exists facepalm_run)))
  end.

(** [spawn_agent] returns the diagnosis instead of routing: a loop was
    detected and FACEPALM gave a diagnosis. *)
Definition on_diagnosis_path (json_loads : string -> option json)
           (log : LogFile) (facepalm_exists : bool) (facepalm_run : proc)
           (self : Router) (task : string) : bool :=
  match _detect_troubleshooting_loop log (recent_tasks self) task with
  | inl _ => false
  | inr (is_loop, _) =>
      is_loop
      && Py.truthy (fst (_invoke_facepalm json_loads facepalm_exists facepalm_run))
  end.

(** The keys [get_openclaw_gateway_config] can add to the spawn output. *)
Definition gateway_keys : list string :=
  ["gatewayToken"; "gatewayPassword"; "gatewayAuthMode"; "gatewayPort"].


(** The tallies as a table over the categories. *)
Definition table (a : Tier -> nat) : ODict.t := map (fun c => (c, a c)) categories.

(** The tally of a pattern, 0 when it has none. *)
Definition tally_of (key : string) (d : ODict.t (K:=string) (V:=nat)) : nat :=
  match ODict.get key d with Some c => c | None => 0 end.

(** The key comparison decides equality. *)
Class EqKeyOk (K : Type) `{EqKey K} :=
  keq_spec : forall a b : K, keq a b = true <-> a = b.
Arguments EqKeyOk K {_}.

(** A sample configuration. *)
Definition flash : ModelDescriptor :=
  {| id := "openrouter/google/gemini-2.5-flash"; alias := "Flash";
     model_tier := "FAST"; input_cost_per_m := 3 # 10; output_cost_per_m := 5 # 2;
     use_for := ["checks"; "summaries"] |}.

Definition haiku : ModelDescriptor :=
  {| id := "openrouter/anthropic/claude-haiku-4.5"; alias := "Haiku";
     model_tier := "FAST"; input_cost_per_m := 1; output_cost_per_m := 5;
     use_for := ["quick answers"] |}.

Definition glm : ModelDescriptor :=
  {| id := "openrouter/z-ai/glm-5"; alias := "GLM-5";
     model_tier := "FAST"; input_cost_per_m := 1 # 2; output_cost_per_m := 2;
     use_for := ["status"] |}.

(** The FAST tier routes to Flash and falls back on Haiku, then GLM-5. *)
Definition two_fallbacks : Config :=
  {| default_model := Some (id flash);
     models := [flash; haiku; glm];
     routing_rules :=
       [("FAST", {| primary := Some (id flash);
                    fallback := [id haiku; id glm] |})] |}.

(** A log line that contains two error keywords, with its line feed. *)
Definition refused_line : string := ("error: connection failed" ++ nl)%string.

(** A router that has dispatched nothing yet. *)
Definition fresh : Router := {| recent_tasks := []; stderr_out := [] |}.

(** [str] for the sample evaluations; they never format a non-string. *)
Definition no_str (v : json) : string := "".

(** A configuration without routing rules: no tier has a model. *)
Definition no_rules : Config :=
  {| default_model := None; models := [flash]; routing_rules := [] |}.

(** A JSON object with one boolean member [ok]. *)
Definition ok_doc (b : string) : string :=
  ("{" ++ quoted "ok" ++ ": " ++ b ++ "}")%string.

(** A tick whose status command ends with [returncode] and prints [out],
    with a recovery that would run through. *)
Definition status_world (returncode : Z) (out : string) : Watchdog.World :=
  {| Watchdog.python := "/usr/bin/python3";
     Watchdog.guard := "/home/u/.openclaw/workspace/skills/gateway-guard/scripts/gateway_guard.py";
     Watchdog.guard_exists := true;
     Watchdog.status_run := Completed (Some returncode) out "";
     Watchdog.recovery_status_run := Completed (Some 1%Z) out "";
     Watchdog.ensure_run := Completed (Some 0%Z) "{}" "";
     Watchdog.gateway_launch := Watchdog.Launched |}.

(** The value stored under [ok], [False] when there is none. *)
Definition ok_value (result : json) : json :=
  match result with
  | JObj d => match ODict.get "ok" d with Some v => v | None => JBool false end
  | _ => JBool false
  end.

(** The status result asks for a recovery: it is unknown, or its [ok] is
    absent or false. *)
Definition needs_recovery (result : json) : bool :=
  Py.is_none result || negb (Py.truthy (ok_value result)).

(** The reasons for which [check_status] has no result: the guard script is
    missing, the command timed out or could not be started, it left no
    return code, it printed nothing but blanks, or what it printed is not
    JSON or is the JSON [null].  A non-zero return code is not among them. *)
Definition status_unknown (json_loads : string -> option json)
           (w : Watchdog.World) : Prop :=
  Watchdog.guard_exists w = false \/
  match Watchdog.status_run w with
  | TimeoutExpired | FileNotFoundError _ => True
  | OtherException _ => False
  | Completed returncode stdout _ =>
      returncode = None \/ PyStr.strip stdout = "" \/
      json_loads (PyStr.strip stdout) = None \/
      json_loads (PyStr.strip stdout) = Some JNull
  end.

(** The command ends without an exception that [run_recovery] lets through. *)
Definition passes (run : proc) : Prop :=
  match run with
  | Completed _ _ _ | TimeoutExpired => True
  | FileNotFoundError _ | OtherException _ => False
  end.

(** The position of a category in the order its tally is stored. *)
Definition tier_rank (c : Tier) : nat :=
  match c with
  | FAST => 0 | REASONING => 1 | CREATIVE => 2 | RESEARCH => 3
  | CODE => 4 | COMPLEX => 5 | VISION => 6 | QUALITY => 7
  end.

(** The highest tally after the agentic adjustment. *)
Definition max_score (task : string) : nat :=
  py_max (map (adjusted_count task) categories).

(** What lines 217-222 turn the selected category into. *)
Definition resolve_complex (task : string) (c : Tier) : Tier :=
  match c with
  | COMPLEX => if 0 <? adjusted_count task CODE then CODE else QUALITY
  | _ => c
  end.

(* ------------------------------------------------------------------ *)
(** *** router.py: the remaining resolver functions *)

(** [routing_rules.get(tier, {})] *)
Definition tier_rules (config : Config) (t : Tier) : RoutingRule :=
  match ODict.get (tier_str t) (routing_rules config) with
  | Some r => r
  | None => {| primary := None; fallback := [] |}
  end.

(** [get_default_model]: the configured default, or the primary of the
    QUALITY rule when [default_model] is missing or empty. *)
Definition get_default_model (config : Config) : option ModelDescriptor :=
  let default_id := default_model config in
  let default_id :=
    if match default_id with Some s => PyStr.truthy s | None => false end
    then default_id
    else
      let tier_rules :=
        match ODict.get "QUALITY" (routing_rules config) with
        | Some r => r
        | None => {| primary := None; fallback := [] |}
        end in
      primary tier_rules in
  find_model (models config) default_id.

(** What [estimate_cost] returns. *)
Inductive CostEstimate :=
| CostError (error : string)
| Cost (cost_tier : Tier) (model_alias : string) (cost : Q) (currency : string).

(** [token_estimate.get(tier, {'in': 500, 'out': 200})], as (in, out). *)
Definition token_estimate (t : Tier) : Z * Z :=
  match t with
  | FAST => (500, 200)
  | REASONING => (2000, 1500)
  | CREATIVE => (1500, 2000)
  | RESEARCH => (1000, 500)
  | CODE => (2000, 1500)
  | QUALITY => (5000, 3000)
  | VISION => (500, 500)
  | COMPLEX => (500, 200)
  end%Z.

(** [round(q, 4)] *)
Definition py_round4 (q : Q) : Q :=
  Qmake (round_half_even (q * inject_Z 10000)%Q) 10000.

(** [estimate_cost], with the prices idealised as rationals. *)
Definition estimate_cost (config : Config) (task_description : string)
  : CostEstimate :=
  let result := recommend_model config task_description in
  match rec_model result with
  | None => CostError "No model found for tier"
  | Some model =>
      let tokens := token_estimate (rec_tier result) in
      let input_cost :=
        (inject_Z (fst tokens) / inject_Z 1000000 * input_cost_per_m model)%Q in
      let output_cost :=
        (inject_Z (snd tokens) / inject_Z 1000000 * output_cost_per_m model)%Q in
      Cost (rec_tier result) (alias model)
           (py_round4 (input_cost + output_cost)%Q) "USD"
  end.



(** The recent tasks whose number of spaces is within 2 of the task's. *)
Definition similar_tasks (task : string) (recent : list string) : list string :=
  filter (fun t => (Z.abs (spaces (PyStr.strip (PyStr.lower task)) - spaces t) <=? 2)%Z)
         recent.


(** A loop was detected but FACEPALM gave no usable diagnosis. *)
Definition facepalm_failed (json_loads : string -> option json)
           (log : LogFile) (facepalm_exists : bool) (facepalm_run : proc)
           (self : Router) (task : string) : bool :=
  match _detect_troubleshooting_loop log (recent_tasks self) task with
  | inl _ => false
  | inr (is_loop, _) =>
      is_loop
      && negb (Py.truthy (fst (_invoke_facepalm json_loads facepalm_exists facepalm_run)))
  end.

(** A router whose history is full. *)
Definition busy : Router :=
  {| recent_tasks := ["t0"; "t1"; "t2"; "t3"; "t4"; "t5"; "t6"; "t7"; "t8"; "t9"];
     stderr_out := [] |}.

(** A FACEPALM run that prints a diagnosis. *)
Definition diagnosed_run : proc :=
  Completed (Some 0%Z)
            ("{" ++ quoted "diagnosis" ++ ": " ++ quoted "token mismatch" ++ "}")%string
            "".

(** An [openclaw.json] with a port and token authentication. *)
Definition token_config : string :=
  ("{" ++ quoted "gateway" ++ ": {" ++ quoted "port" ++ ": 18789, "
   ++ quoted "auth" ++ ": {" ++ quoted "mode" ++ ": " ++ quoted "token" ++ ", "
   ++ quoted "token" ++ ": " ++ quoted "abc" ++ ", "
   ++ quoted "password" ++ ": " ++ quoted "hunter2" ++ "}}}")%string.

(* ------------------------------------------------------------------ *)
(** *** gateway_watchdog.py: the loop of [main] *)

Module WatchdogLoop.
Import Watchdog.

Definition INTERVAL_SEC : nat := 10.

(** What [main] does, in order: the two log lines of its own, the events of
    the ticks, and the one-second sleeps. *)
Inductive item :=
| LogStarted                 (* gateway watchdog started (interval=10s) *)
| Event (e : event)
| Sleep                      (* [time.sleep(1)] *)
| LogStopped.                (* gateway watchdog stopped *)

(** One turn of the [while] loop: the world its tick meets, and when the
    SIGTERM handler has set [_shutdown]: [Some j] when the flag is set once
    [j] sleeps of this turn are done ([Some 0]: during the tick), [None]
    when it is not set during this turn. *)
Record Turn := {
  world : World;
  sigterm : option nat
}.

(** How [main] ends: the loop was left, an exception escaped, or the turns
    given ran out with the loop still going. *)
Inductive ending := Stopped | Raised (e : exn) | StillRunning.

(** [_shutdown], read when [slept] sleeps of the turn are done. *)
Definition shutdown_seen (sig : option nat) (slept : nat) : bool :=
  match sig with Some j => j <=? slept | None => false end.

(** [for _ in range(n): if _shutdown: break; time.sleep(1)] *)
Fixpoint sleep_slices (n slept : nat) (sig : option nat) : list item :=
  match n with
  | 0 => []
  | S n' =>
      if shutdown_seen sig slept then []
      else Sleep :: sleep_slices n' (S slept) sig
  end.

Section Loop.
Variable json_loads : string -> option json.

(** [while not _shutdown: ...], entered with the flag clear. *)
Fixpoint loop (turns : list Turn) : list item * ending :=
  match turns with
  | [] => ([], StillRunning)
  | t :: rest =>
      match tick json_loads (world t) with
      | (tr, inl e) => (map Event tr, Raised e)
      | (tr, inr _) =>
          let slices := sleep_slices INTERVAL_SEC 0 (sigterm t) in
          if shutdown_seen (sigterm t) INTERVAL_SEC
          then (map Event tr ++ slices, Stopped)
          else let '(tr', e) := loop rest in
               (map Event tr ++ slices ++ tr', e)
      end
  end.

(** [main]; [shutdown_at_start] tells whether SIGTERM came before the loop
    was entered. *)
Definition main (shutdown_at_start : bool) (turns : list Turn)
  : list item * ending :=
  if shutdown_at_start then ([LogStarted; LogStopped], Stopped)
  else
    let '(tr, e) := loop turns in
    (LogStarted :: tr ++ match e with Stopped => [LogStopped] | _ => [] end, e).

End Loop.

(** The events of the tick of a turn. *)
Definition tick_events (json_loads : string -> option json) (t : Turn)
  : list item :=
  map Event (fst (tick json_loads (world t))).

(** The tick of the turn ends without an exception. *)
Definition tick_ok (json_loads : string -> option json) (t : Turn) : Prop :=
  snd (tick json_loads (world t)) = inr tt.

(** What turns without a signal leave behind: the events of each tick, each
    followed by a full interval of sleeps. *)
Definition quiet_turns (json_loads : string -> option json)
           (turns : list Turn) : list item :=
  concat (map (fun t => tick_events json_loads t ++ repeat Sleep INTERVAL_SEC)
              turns).

End WatchdogLoop.

(** A turn whose status check finds the gateway well. *)
Definition calm_turn (sig : option nat) : WatchdogLoop.Turn :=
  {| WatchdogLoop.world := status_world 0 (ok_doc "true");
     WatchdogLoop.sigterm := sig |}.

(** A turn whose status command prints a JSON array. *)
Definition broken_turn : WatchdogLoop.Turn :=
  {| WatchdogLoop.world := status_world 0 "[]";
     WatchdogLoop.sigterm := None |}.

(** The status command answers with a JSON value that is neither [null]
    nor an object. *)
Definition not_a_status (result : json) : Prop :=
  match result with
  | JNull | JObj _ => False
  | _ => True
  end.

(* ================================================================== *)
(** ** Dictionaries and arg-max: general facts *)

#[export] Instance EqKeyOk_string : EqKeyOk string := String.eqb_eq.

Lemma tier_eqb_spec (a b : Tier) : tier_eqb a b = true <-> a = b.
Proof. destruct a, b; simpl; split; congruence. Qed.

#[export] Instance EqKeyOk_Tier : EqKeyOk Tier := tier_eqb_spec.

Section DictFacts.
Context {K V : Type} `{EqKeyOk K}.

Lemma keq_refl (k : K) : keq k k = true.
Proof. now apply keq_spec. Qed.

Lemma keq_neq (a b : K) : a <> b -> keq a b = false.
Proof.
  intros Hab. destruct (keq a b) eqn:E; [|reflexivity].
  apply keq_spec in E. contradiction.
Qed.

Lemma get_set_same (k : K) (v : V) (d : ODict.t) :
  ODict.get k (ODict.set k v d) = Some v.
Proof.
  induction d as [|[k' v'] d IH]; simpl.
  - now rewrite keq_refl.
  - destruct (keq k k') eqn:E; simpl; rewrite E; [reflexivity | exact IH].
Qed.

Lemma get_set_other (k k' : K) (v : V) (d : ODict.t) :
  k <> k' -> ODict.get k (ODict.set k' v d) = ODict.get k d.
Proof.
  intros Hne. induction d as [|[k0 v0] d IH]; simpl.
  - now rewrite (keq_neq Hne).
  - destruct (keq k' k0) eqn:E; simpl.
    + apply keq_spec in E. subst k0. now rewrite (keq_neq Hne).
    + destruct (keq k k0); [reflexivity | exact IH].
Qed.

Lemma get_In (k : K) (v : V) (d : ODict.t) :
  ODict.get k d = Some v -> In (k, v) d.
Proof.
  induction d as [|[k' v'] d IH]; simpl; [discriminate|].
  destruct (keq k k') eqn:E.
  - apply keq_spec in E. intros [= ->]. left. now subst.
  - intros Hg. right. now apply IH.
Qed.

(** Filtering on values keeps the entry of a key that occurs once. *)
Lemma get_filter_values (p : V -> bool) (k : K) (d : ODict.t) :
  NoDup (ODict.keys d) ->
  ODict.get k (ODict.filter_values p d) =
  match ODict.get k d with
  | Some v => if p v then Some v else None
  | None => None
  end.
Proof.
  unfold ODict.filter_values, ODict.keys.
  induction d as [|[k' v'] d IH]; simpl; [reflexivity|].
  intros Hnd. inversion Hnd as [|? ? Hnotin Hnd']; subst.
  destruct (keq k k') eqn:E.
  - apply keq_spec in E. subst k'.
    destruct (p v') eqn:Ep; simpl.
    + now rewrite keq_refl.
    + rewrite (IH Hnd').
      destruct (ODict.get k d) as [v|] eqn:G; [|reflexivity].
      exfalso. apply Hnotin. apply get_In in G.
      now apply (in_map fst) in G.
    - destruct (p v'); simpl; [rewrite E|]; now apply IH.
Qed.

End DictFacts.

(** The arg-max either keeps the running best or moves to an entry that
    beats the running value. *)
Lemma py_max_key_from_cases {K} (d : list (K * nat)) (best : K) (bv : nat) :
  py_max_key_from best bv d = best \/
  exists v, In (py_max_key_from best bv d, v) d /\ bv < v.
Proof.
  revert best bv. induction d as [|[k v] d IH]; intros best bv; simpl.
  - now left.
  - destruct (Nat.ltb_spec bv v) as [Hlt|Hge].
    + right. destruct (IH k v) as [-> | [v' [Hin Hv']]].
      * exists v. split; [now left | exact Hlt].
      * exists v'. split; [now right | lia].
    + destruct (IH best bv) as [-> | [v' [Hin Hv']]].
      * now left.
      * right. exists v'. split; [now right | exact Hv'].
Qed.

(** When some entry beats the running value, the arg-max is such an entry. *)
Lemma py_max_key_from_moves {K} (d : list (K * nat)) (best : K) (bv : nat) :
  (exists k v, In (k, v) d /\ bv < v) ->
  exists v, In (py_max_key_from best bv d, v) d /\ bv < v.
Proof.
  revert best bv. induction d as [|[k v] d IH]; intros best bv [k0 [v0 [Hin Hlt]]].
  - destruct Hin.
  - simpl. destruct (Nat.ltb_spec bv v) as [Hbv|Hbv].
    + destruct (py_max_key_from_cases d k v) as [-> | [v' [Hin' Hv']]].
      * exists v. split; [now left | exact Hbv].
      * exists v'. split; [now right | lia].
    + destruct Hin as [[= -> ->] | Hin]; [lia|].
      destruct (IH best bv) as [v' [Hin' Hv']]; [now exists k0, v0|].
      exists v'. split; [now right | exact Hv'].
Qed.

Lemma py_max_ge (xs : list nat) (x : nat) : In x xs -> x <= py_max xs.
Proof.
  induction xs as [|y xs IH]; simpl; [tauto|].
  intros [-> | Hin]; [lia | specialize (IH Hin); lia].
Qed.

Lemma py_max_zero (xs : list nat) :
  (forall x, In x xs -> x = 0) -> py_max xs = 0.
Proof.
  induction xs as [|y xs IH]; simpl; intros Hall; [reflexivity|].
  rewrite IH by (intros; apply Hall; now right).
  rewrite (Hall y) by now left. reflexivity.
Qed.

(* ================================================================== *)
(** ** The classifier *)

Lemma raw_scores_table (task : string) :
  raw_scores task = table (raw_count task).
Proof. reflexivity. Qed.

Lemma adjusted_scores_table (task : string) :
  agentic_adjust (agentic task) (raw_scores task) = table (adjusted_count task).
Proof.
  unfold adjusted_count, agentic_adjust, raw_scores, table, categories, score, raw_count.
  generalize (_keyword_match task SIMPLE_KEYWORDS) as f.
  intros f. destruct (agentic task); [|reflexivity].
  destruct f; reflexivity.
Qed.

Lemma score_table (a : Tier -> nat) (c : Tier) :
  score (table a) c = if tier_eqb c QUALITY then 0 else a c.
Proof. destruct c; reflexivity. Qed.

Lemma get_table (a : Tier -> nat) (c : Tier) :
  ODict.get c (table a) = if tier_eqb c QUALITY then None else Some (a c).
Proof. destruct c; reflexivity. Qed.

Lemma table_keys_NoDup (a : Tier -> nat) : NoDup (ODict.keys (table a)).
Proof.
  unfold ODict.keys, table. rewrite map_map. simpl.
  repeat constructor; simpl; intuition discriminate.
Qed.

(** What [classify_task] computes once the vision exit is passed. *)
Lemma classify_details_scored (task : string) :
  on_vision_path task = false ->
  classify_details task =
  let ts := table (adjusted_count task) in
  {| tier := select_tier task ts;
     confidence := py_round3 (Qmin (of_nat_Q (py_max (ODict.values ts)) / 5) 1);
     tier_scores := ODict.filter_values (fun v => 0 <? v) ts;
     is_agentic := agentic task |}.
Proof.
  unfold on_vision_path, classify_details. intros ->.
  rewrite adjusted_scores_table. reflexivity.
Qed.

Lemma tier_scored (task : string) :
  on_vision_path task = false ->
  tier (classify_details task) = select_tier task (table (adjusted_count task)).
Proof. intros H. now rewrite classify_details_scored. Qed.

Lemma confidence_scored (task : string) :
  on_vision_path task = false ->
  confidence (classify_details task) =
  py_round3 (Qmin (of_nat_Q (py_max (ODict.values (table (adjusted_count task)))) / 5) 1).
Proof. intros H. now rewrite classify_details_scored. Qed.

Lemma tier_scores_scored (task : string) :
  on_vision_path task = false ->
  tier_scores (classify_details task) =
  ODict.filter_values (fun v => 0 <? v) (table (adjusted_count task)).
Proof. intros H. now rewrite classify_details_scored. Qed.

Lemma classify_details_vision (task : string) :
  on_vision_path task = true -> tier (classify_details task) = VISION.
Proof. unfold on_vision_path, classify_details. intros ->. reflexivity. Qed.

(** The arg-max over a table never lands on a category whose tally is 0
    unless it is the first one. *)
Lemma py_max_key_table (a : Tier -> nat) :
  py_max_key FAST (table a) = FAST \/
  exists c, py_max_key FAST (table a) = c /\ In c categories /\ c <> FAST
            /\ a FAST < a c.
Proof.
  unfold table, categories; simpl map. unfold py_max_key.
  match goal with |- context [py_max_key_from ?b ?v ?d] =>
    destruct (py_max_key_from_cases d b v) as [E | [v' [Hin Hlt]]] end.
  - now left.
  - right. eexists. split; [reflexivity|].
    match type of Hin with In (?r, _) _ => generalize dependent r end.
    intros r Hin. simpl in Hin.
    repeat (destruct Hin as [Hin | Hin];
            [ injection Hin as Hk Hv; subst r v';
              simpl; repeat split; (tauto || discriminate || exact Hlt) | ]).
    destruct Hin.
Qed.

(** The tier selected from a table whose VISION tally is 0 is public. *)
Lemma select_tier_public (task : string) (a : Tier -> nat) :
  a VISION = 0 -> In (select_tier task (table a)) public_tiers.
Proof.
  intros Hv. unfold select_tier.
  assert (Hbest : (if py_max (ODict.values (table a)) =? 0 then FAST
                   else py_max_key FAST (table a)) <> VISION).
  { destruct (py_max (ODict.values (table a)) =? 0); [discriminate|].
    destruct (py_max_key_table a) as [-> | [c [-> [_ [_ Hlt]]]]]; [discriminate|].
    intros ->. lia. }
  revert Hbest.
  generalize (if py_max (ODict.values (table a)) =? 0 then FAST
              else py_max_key FAST (table a)) as best.
  intros best Hbest. cbv zeta.
  repeat match goal with |- context [if ?b then _ else _] =>
    lazymatch b with
    | tier_eqb _ _ => fail
    | _ => destruct b
    end end;
  destruct best; simpl; try contradiction; tauto.
Qed.

Lemma select_tier_not_complex (task : string) (ts : ODict.t) :
  select_tier task ts <> COMPLEX.
Proof.
  unfold select_tier.
  generalize (if py_max (ODict.values ts) =? 0 then FAST else py_max_key FAST ts).
  intros best. cbv zeta.
  repeat match goal with |- context [if ?b then _ else _] =>
    lazymatch b with
    | tier_eqb _ _ => fail
    | _ => destruct b
    end end;
  destruct best; simpl; discriminate.
Qed.

(** The two forms of the value [classify_task] returns: the bare tier only
    when the details are not asked for and the task has no vision keyword,
    the details in every other case, the vision exit included. *)
Lemma classify_task_forms (task : string) (return_details : bool) :
  classify_task task return_details =
  if negb return_details && negb (on_vision_path task)
  then inl (tier (classify_details task))
  else inr (classify_details task).
Proof.
  unfold classify_task, on_vision_path.
  destruct (0 <? _keyword_match task vision_keywords), return_details;
    reflexivity.
Qed.

(** C7.  Whatever the task and whichever form of result the caller asks
    for, the tier [classify_task] returns, as the bare tier or as the [tier]
    entry of the details, is one of VISION, FAST, REASONING, CREATIVE,
    RESEARCH, CODE and QUALITY; the internal COMPLEX bucket is never
    returned. *)
Theorem classify_task_tier_public (task : string) (return_details : bool) :
  match classify_task task return_details with
  | inl t => In t public_tiers /\ t <> COMPLEX
  | inr details => In (tier details) public_tiers /\ tier details <> COMPLEX
  end.
Proof.
  assert (Hpub : In (tier (classify_details task)) public_tiers /\
                 tier (classify_details task) <> COMPLEX).
  { destruct (on_vision_path task) eqn:Hv.
    - rewrite (classify_details_vision _ Hv). split; [now left | discriminate].
    - rewrite (tier_scored _ Hv). split.
      + apply select_tier_public.
        unfold adjusted_count, on_vision_path in *. simpl raw_count.
        apply Nat.ltb_ge in Hv. destruct (agentic task); lia.
      + apply select_tier_not_complex. }
  rewrite classify_task_forms.
  destruct (negb return_details && negb (on_vision_path task)); exact Hpub.
Qed.

(** Once a website keyword is present and the COMPLEX-versus-FAST rule is
    silent, the selected tier is CREATIVE. *)
Lemma select_tier_website (task : string) (a : Tier -> nat) :
  has_website_keyword task = true ->
  ((0 <? a COMPLEX) && (0 <? a FAST) && (a FAST <=? a COMPLEX)) = false ->
  select_tier task (table a) = CREATIVE.
Proof.
  unfold has_website_keyword, select_tier. intros -> Hrule.
  rewrite !score_table. simpl tier_eqb. cbv iota zeta.
  destruct (0 <? a COMPLEX), (0 <? a FAST); simpl in *; try reflexivity.
  rewrite Hrule. reflexivity.
Qed.

(** C1, as the code has it.  A task with a website/landing/frontend-project
    keyword is classified CREATIVE whenever it has no vision keyword and the
    COMPLEX-versus-FAST rule does not fire (it is not the case that COMPLEX
    and FAST both score above 0 with COMPLEX >= FAST, after the agentic
    adjustment); this holds whatever the arg-max of the scores is. *)
Theorem website_override_creative (task : string) :
  has_website_keyword task = true ->
  on_vision_path task = false ->
  complex_fast_rule_fires task = false ->
  tier (classify_details task) = CREATIVE.
Proof.
  intros Hweb Hvis Hrule.
  rewrite (tier_scored _ Hvis).
  now apply select_tier_website.
Qed.

Lemma website_override_creative_witness :
  (has_website_keyword "debug the frontend code" = true /\
   py_max_key FAST (table (adjusted_count "debug the frontend code")) = CODE /\
   tier (classify_details "debug the frontend code") = CREATIVE) /\
  (has_website_keyword "new site for a comprehensive system" = true /\
   py_max_key FAST (table (adjusted_count "new site for a comprehensive system"))
   = COMPLEX /\
   adjusted_count "new site for a comprehensive system" CODE = 0 /\
   tier (classify_details "new site for a comprehensive system") = CREATIVE).
Proof.
  split.
  - split; [vm_compute; reflexivity|].
    split; [vm_compute; reflexivity|].
    apply (@website_override_creative "debug the frontend code");
      vm_compute; reflexivity.
  - split; [vm_compute; reflexivity|].
    split; [vm_compute; reflexivity|].
    split; [vm_compute; reflexivity|].
    apply (@website_override_creative "new site for a comprehensive system");
      vm_compute; reflexivity.
Defined.

(** C1 fails as stated: "website screenshot" has a website keyword and is
    classified VISION (the vision exit returns the details in either mode);
    "build a simple website" has one too, scores COMPLEX = FAST = 1, and is
    classified CODE. *)
Lemma website_override_counterexample :
  (has_website_keyword "website screenshot" = true /\
   tier (classify_details "website screenshot") = VISION /\
   classify_task "website screenshot" false
   = inr (classify_details "website screenshot")) /\
  (has_website_keyword "build a simple website" = true /\
   raw_count "build a simple website" COMPLEX = 1 /\
   raw_count "build a simple website" FAST = 1 /\
   tier (classify_details "build a simple website") = CODE /\
   classify_task "build a simple website" false = inl CODE).
Proof. vm_compute. repeat split; reflexivity. Qed.

(** C5, as the code has it.  A task in which no keyword of any category
    matches, which is not agentic (fewer than two agentic keywords and no
    multi-step pattern) and which has no website keyword, is classified FAST
    with confidence 0. *)
Theorem no_match_is_fast (task : string) :
  (forall c, raw_count task c = 0) ->
  agentic task = false ->
  has_website_keyword task = false ->
  tier (classify_details task) = FAST /\
  (confidence (classify_details task) == 0)%Q.
Proof.
  intros Hraw Hag Hweb.
  assert (Hvis : on_vision_path task = false).
  { unfold on_vision_path. apply Nat.ltb_ge. specialize (Hraw VISION).
    simpl in Hraw. lia. }
  assert (Hadj : forall c, adjusted_count task c = 0).
  { intros c. unfold adjusted_count. rewrite Hag. apply Hraw. }
  assert (Hmax : py_max (ODict.values (table (adjusted_count task))) = 0).
  { apply py_max_zero. unfold ODict.values, table. rewrite map_map. simpl map.
    intros x Hin. simpl in Hin.
    repeat (destruct Hin as [Hin | Hin]; [rewrite <- Hin; apply Hadj|]).
    destruct Hin. }
  rewrite (tier_scored _ Hvis), (confidence_scored _ Hvis).
  split.
  - unfold select_tier. unfold has_website_keyword in Hweb.
    rewrite Hmax, Hweb, !score_table. simpl tier_eqb. cbv iota zeta.
    rewrite (Hadj COMPLEX). reflexivity.
  - rewrite Hmax. vm_compute. reflexivity.
Qed.

Lemma no_match_is_fast_witness :
  tier (classify_details "hello world") = FAST /\
  (confidence (classify_details "hello world") == 0)%Q.
Proof.
  apply no_match_is_fast.
  - intros c. destruct c; vm_compute; reflexivity.
  - vm_compute. reflexivity.
  - vm_compute. reflexivity.
Defined.

(** C5 fails as stated: no category keyword occurs in "new site" nor in
    "next", yet the first is classified CREATIVE (website override) and the
    second CODE with confidence 2/5 (multi-step pattern). *)
Lemma no_match_counterexample :
  ((forall c, raw_count "new site" c = 0) /\
   returned_tier (classify_task "new site" false) = CREATIVE) /\
  ((forall c, raw_count "next" c = 0) /\
   tier (classify_details "next") = CODE /\
   (confidence (classify_details "next") == 2 # 5)%Q).
Proof.
  repeat split; try (intros c; destruct c); vm_compute; reflexivity.
Qed.

(** C6.  On the non-vision path, a task with at least two agentic keywords
    or a multi-step pattern, and with at least one FAST keyword, is never
    classified FAST. *)
Theorem agentic_never_fast (task : string) :
  on_vision_path task = false ->
  2 <= agentic_count task \/ is_multi_step task = true ->
  0 < raw_count task FAST ->
  tier (classify_details task) <> FAST.
Proof.
  intros Hvis Hag _.
  assert (Hagentic : agentic task = true).
  { unfold agentic. destruct Hag as [Hc | ->].
    - apply Nat.leb_le in Hc. now rewrite Hc.
    - apply orb_true_r. }
  rewrite (tier_scored _ Hvis).
  set (a := adjusted_count task).
  assert (Hfast : a FAST = 0) by (unfold a, adjusted_count; now rewrite Hagentic).
  assert (Hcode : 2 <= a CODE) by (unfold a, adjusted_count; rewrite Hagentic; lia).
  assert (Hmax : (py_max (ODict.values (table a)) =? 0) = false).
  { apply Nat.eqb_neq.
    assert (a CODE <= py_max (ODict.values (table a))).
    { apply py_max_ge. unfold ODict.values, table. rewrite map_map. simpl. tauto. }
    lia. }
  assert (Hbest : py_max_key FAST (table a) <> FAST).
  { unfold table, categories; simpl map. unfold py_max_key.
    match goal with |- context [py_max_key_from ?b ?v ?d] =>
      destruct (@py_max_key_from_moves _ d b v) as [v' [Hin Hlt]] end.
    - exists CODE, (a CODE). split; [simpl; tauto | lia].
    - match type of Hin with In (?r, _) _ => generalize dependent r end.
      intros r Hin. simpl in Hin.
      repeat (destruct Hin as [Hin | Hin];
              [injection Hin as Hk _; subst r; discriminate|]).
      destruct Hin. }
  unfold select_tier. rewrite Hmax. revert Hbest.
  generalize (py_max_key FAST (table a)) as best. intros best Hbest.
  rewrite !score_table. simpl tier_eqb at 2 3 4 5 6. cbv iota zeta.
  rewrite Hfast. rewrite Nat.ltb_irrefl, andb_false_r.
  destruct (0 <? _keyword_match task website_project_keywords); [discriminate|].
  destruct best; simpl; try discriminate; try contradiction.
  destruct (0 <? a CODE); discriminate.
Qed.

Lemma agentic_never_fast_witness :
  on_vision_path "first check status then deploy" = false /\
  is_multi_step "first check status then deploy" = true /\
  raw_count "first check status then deploy" FAST = 2 /\
  tier (classify_details "first check status then deploy") <> FAST.
Proof.
  split; [vm_compute; reflexivity|].
  split; [vm_compute; reflexivity|].
  split; [vm_compute; reflexivity|].
  apply agentic_never_fast.
  - vm_compute; reflexivity.
  - right. vm_compute; reflexivity.
  - vm_compute. lia.
Defined.

(** C9, as the code has it.  On the non-vision path [tier_scores] maps each
    category to its keyword-hit count after the agentic adjustment (for an
    agentic task CODE is its raw count plus 2 and FAST is 0; otherwise the
    raw count), each keyword counted at most once, and categories whose
    value is 0 are left out. *)
Theorem tier_scores_adjusted (task : string) :
  on_vision_path task = false ->
  forall c,
    ODict.get c (tier_scores (classify_details task)) =
    if 0 <? adjusted_count task c then Some (adjusted_count task c) else None.
Proof.
  intros Hvis c.
  rewrite (tier_scores_scored _ Hvis).
  rewrite get_filter_values by apply table_keys_NoDup.
  rewrite get_table.
  destruct (tier_eqb c QUALITY) eqn:E; [|reflexivity].
  apply tier_eqb_spec in E. subst c.
  unfold adjusted_count. simpl raw_count. now destruct (agentic task).
Qed.

Lemma tier_scores_adjusted_witness :
  on_vision_path "first check status then deploy" = false /\
  ODict.get CODE (tier_scores (classify_details "first check status then deploy")) =
  if 0 <? adjusted_count "first check status then deploy" CODE
  then Some (adjusted_count "first check status then deploy" CODE) else None.
Proof.
  split; [vm_compute; reflexivity|].
  apply (@tier_scores_adjusted "first check status then deploy").
  vm_compute; reflexivity.
Defined.

(** C9 fails as stated: "next" is on the non-vision path and has no CODE
    keyword, yet its [tier_scores] maps CODE to 2; "first check status then
    deploy" has two FAST keywords, yet FAST is missing from its
    [tier_scores]. *)
Lemma tier_scores_counterexample :
  (on_vision_path "next" = false /\
   raw_count "next" CODE = 0 /\
   ODict.get CODE (tier_scores (classify_details "next")) = Some 2) /\
  (on_vision_path "first check status then deploy" = false /\
   raw_count "first check status then deploy" FAST = 2 /\
   ODict.get FAST (tier_scores (classify_details "first check status then deploy"))
   = None).
Proof. vm_compute. repeat split; reflexivity. Qed.

(* ================================================================== *)
(** ** The model resolver *)

Lemma resolve_fallback_app (models : list ModelDescriptor) (ids : list string)
      (fb_id : string) :
  resolve_fallback models (ids ++ [fb_id]) =
  match find_model models (Some fb_id) with
  | Some m => Some m
  | None => resolve_fallback models ids
  end.
Proof. unfold resolve_fallback. rewrite fold_left_app. reflexivity. Qed.

(** What the fallback loop computes: the model of the LAST id of the list
    that names a configured model, and nothing when no id does. *)
Lemma resolve_fallback_last (models : list ModelDescriptor) (ids : list string) :
  resolve_fallback models ids =
  match find (resolvable models) (rev ids) with
  | Some fb_id => find_model models (Some fb_id)
  | None => None
  end.
Proof.
  induction ids as [|fb_id ids IH] using rev_ind; [reflexivity|].
  rewrite resolve_fallback_app, rev_app_distr.
  change (rev [fb_id] ++ rev ids) with (fb_id :: rev ids).
  cbn [find]. unfold resolvable at 1.
  destruct (find_model models (Some fb_id)) eqn:E; [now rewrite E | exact IH].
Qed.

Lemma resolve_fallback_none (models : list ModelDescriptor) (ids : list string) :
  (forall fb_id, In fb_id ids -> resolvable models fb_id = false) ->
  resolve_fallback models ids = None.
Proof.
  intros Hnone. rewrite resolve_fallback_last.
  destruct (find (resolvable models) (rev ids)) as [fb_id|] eqn:E; [|reflexivity].
  apply find_some in E. destruct E as [Hin Hres].
  apply in_rev in Hin. rewrite (Hnone _ Hin) in Hres. discriminate.
Qed.

(** C2 does not hold of the code.  With a FAST rule whose fallback list is
    Haiku, GLM-5, both configured, the first id of the list resolves (to
    Haiku), yet [recommend_model] reports GLM-5, the last one, as the
    fallback of the FAST task "check the weather". *)
Theorem fallback_is_last_resolvable :
  rec_tier (recommend_model two_fallbacks "check the weather") = FAST /\
  find_model (models two_fallbacks) (Some (id haiku)) = Some haiku /\
  rec_fallback (recommend_model two_fallbacks "check the weather") = Some glm.
Proof. vm_compute. repeat split; reflexivity. Qed.

(* ================================================================== *)
(** ** The troubleshooting-loop detector *)

Lemma tally_of_bump (key pattern : string) (d : ODict.t) :
  tally_of key (bump pattern d) =
  if String.eqb key pattern then tally_of key d + 1 else tally_of key d.
Proof.
  unfold tally_of, bump.
  destruct (String.eqb_spec key pattern) as [->|Hne].
  - now rewrite get_set_same.
  - now rewrite get_set_other.
Qed.

(** The keyword loop over one line never lowers a tally, and raises the
    tally of the line's key when one of the keywords occurs in the line. *)
Lemma keyword_loop_tally (line key : string) (kws : list string) (d : ODict.t) :
  let d' := fold_left
              (fun ep keyword =>
                 if PyStr.contains keyword (PyStr.lower line)
                 then bump (PyStr.take 100 (PyStr.strip line)) ep else ep)
              kws d in
  tally_of key d <= tally_of key d' /\
  (existsb (fun kw => PyStr.contains kw (PyStr.lower line)) kws = true ->
   line_key line = key -> tally_of key d + 1 <= tally_of key d').
Proof.
  revert d. induction kws as [|kw kws IH]; intros d; cbn [fold_left existsb].
  - split; [lia | discriminate].
  - destruct (PyStr.contains kw (PyStr.lower line)) eqn:Hc; cbn [orb].
    + destruct (IH (bump (PyStr.take 100 (PyStr.strip line)) d)) as [Hmono _].
      rewrite tally_of_bump in Hmono.
      split.
      * destruct (String.eqb key (PyStr.take 100 (PyStr.strip line))); lia.
      * intros _ Hkey. unfold line_key in Hkey. rewrite <- Hkey in Hmono |- *.
        rewrite String.eqb_refl in Hmono. exact Hmono.
    + exact (IH d).
Qed.

Lemma tally_line_grows (line key : string) (d : ODict.t) :
  tally_of key d
  + (if is_error_line line && String.eqb (line_key line) key then 1 else 0)
  <= tally_of key (tally_line d line).
Proof.
  destruct (keyword_loop_tally line key error_keywords d) as [Hmono Hhit].
  fold (tally_line d line) in Hmono, Hhit.
  destruct (is_error_line line) eqn:He; simpl; [|lia].
  destruct (String.eqb_spec (line_key line) key) as [Hk|_]; [|lia].
  apply Hhit; [exact He | exact Hk].
Qed.

(** Every occurrence of an error line adds at least one to the tally of
    its key. *)
Lemma tally_counts_occurrences (lines : list string) (key : string) (d : ODict.t) :
  tally_of key d + occurrences key lines
  <= tally_of key (fold_left tally_line lines d).
Proof.
  revert d. induction lines as [|line lines IH]; intros d.
  - unfold occurrences. simpl. lia.
  - simpl fold_left. specialize (IH (tally_line d line)).
    pose proof (tally_line_grows line key d) as Hline.
    unfold occurrences in *. simpl filter.
    destruct (is_error_line line && String.eqb (line_key line) key);
      simpl List.length; lia.
Qed.

(** Three or more occurrences of an error line with the same key among the
    last 200 lines make the log-based check fire. *)
Lemma three_occurrences_log_check (lines : list string) (key : string) :
  3 <= occurrences key (last_n 200 lines) ->
  exists reason, log_check (LogLines lines) = inr (Some reason).
Proof.
  intros Hocc. unfold log_check.
  pose proof (tally_counts_occurrences (last_n 200 lines) key ODict.empty) as Ht.
  fold (tally (last_n 200 lines)) in Ht.
  destruct (find (fun pc => 3 <=? snd pc) (tally (last_n 200 lines)))
    as [[pattern count]|] eqn:Hfind; [eexists; reflexivity|].
  exfalso. unfold tally_of in Ht.
  destruct (ODict.get key (tally (last_n 200 lines))) as [c|] eqn:Hget.
  - apply get_In in Hget.
    pose proof (find_none _ _ Hfind _ Hget) as Hlow. cbn [snd] in Hlow.
    apply Nat.leb_gt in Hlow. simpl in Ht. lia.
  - simpl in Ht. lia.
Qed.

(** The true half of C4: when an error line with the same key occurs three
    or more times among the last 200 lines of a readable log, the detector
    reports a loop. *)
Lemma three_occurrences_detected (lines recent : list string) (task key : string) :
  3 <= occurrences key (last_n 200 lines) ->
  exists reason,
    _detect_troubleshooting_loop (LogLines lines) recent task
    = inr (true, Some reason).
Proof.
  intros Hocc. destruct (three_occurrences_log_check lines key Hocc) as [reason Hlog].
  exists reason. unfold _detect_troubleshooting_loop. now rewrite Hlog.
Qed.

(** C4 does not hold of the code.  The log holds the same error line
    exactly twice; the line contains two error keywords ("error" and
    "failed"), each of which adds one to the tally of the line, so the tally
    is 4 and the detector reports a loop from the log-based check. *)
Theorem two_occurrences_reported_as_loop :
  occurrences (line_key refused_line) (last_n 200 [refused_line; refused_line]) = 2 /\
  _detect_troubleshooting_loop (LogLines [refused_line; refused_line]) [] "hello"
  = inr (true, Some "Repeated error detected: error: connection failed... (4 times)").
Proof. vm_compute. split; reflexivity. Qed.

(** With one keyword per line, two occurrences stay below the threshold. *)
Example two_plain_occurrences_no_loop :
  _detect_troubleshooting_loop
    (LogLines ["gateway error" ++ nl; "gateway error" ++ nl]%string) [] "hello"
  = inr (false, None).
Proof. vm_compute. reflexivity. Qed.

(** A log that cannot be decoded makes the detector raise. *)
Example undecodable_log_raises :
  _detect_troubleshooting_loop LogUndecodable [] "hello" = inl UnicodeDecodeError.
Proof. reflexivity. Qed.

(* ================================================================== *)
(** ** The dispatcher *)

Lemma last_skipn {A} (n : nat) (xs : list A) (d : A) :
  n < List.length xs -> last (skipn n xs) d = last xs d.
Proof.
  revert n. induction xs as [|x xs IH]; intros n Hn; simpl in Hn; [lia|].
  destruct n; [reflexivity|].
  simpl skipn. rewrite IH by lia.
  destruct xs; [simpl in Hn; lia | reflexivity].
Qed.

(** The history never holds more than ten tasks after a dispatch, and the
    task just dispatched is its last entry. *)
Lemma track_bounded (task : string) (recent : list string) :
  List.length (track task recent) <= 10 /\
  last (track task recent) "" = PyStr.strip (PyStr.lower task).
Proof.
  unfold track, last_n. split.
  - rewrite length_skipn. lia.
  - rewrite last_skipn by (rewrite length_app; simpl; lia).
    apply last_last.
Qed.


Section DispatchFacts.
Variable json_loads : string -> option json.
Variable py_str : json -> string.


(** Off the normal path, that is when the loop detection raised, or a loop
    was detected and a diagnosis came back, the router is left as it
    was. *)
Lemma spawn_agent_diagnosis_keeps_history
      (config : Config) (log : LogFile) (facepalm_exists : bool)
      (facepalm_run : proc) (self : Router)
      (task session_target : string) (label : option string) :
  on_normal_path json_loads log facepalm_exists facepalm_run self task = false ->
  snd (spawn_agent json_loads py_str config log facepalm_exists
                   facepalm_run self task session_target label) = self.
Proof.
  unfold on_normal_path, spawn_agent.
  destruct (_detect_troubleshooting_loop log (recent_tasks self) task)
    as [e|[is_loop loop_reason]]; [reflexivity|].
  destruct is_loop; [|discriminate].
  destruct (_invoke_facepalm json_loads facepalm_exists facepalm_run)
    as [diagnosis error].
  cbn [fst andb]. intros Hloop.
  apply negb_false_iff in Hloop. rewrite Hloop. reflexivity.
Qed.

(** A [gateway.log] that cannot be decoded makes [spawn_agent] raise before
    any routing, whatever the configured models are, and leaves the router
    as it was; such a call is not on the normal path. *)
Lemma spawn_agent_undecodable_log
      (config : Config) (facepalm_exists : bool) (facepalm_run : proc)
      (self : Router) (task session_target : string) (label : option string) :
  spawn_agent json_loads py_str config LogUndecodable facepalm_exists
              facepalm_run self task session_target label
  = (inl UnicodeDecodeError, self) /\
  on_normal_path json_loads LogUndecodable facepalm_exists facepalm_run self task
  = false.
Proof. split; reflexivity. Qed.

End DispatchFacts.


(** The second dispatch of the witness returns, and the full history loses
    its oldest task. *)
Example spawn_agent_full_history_routes :
  exists r,
    spawn_agent MiniJson.loads no_str two_fallbacks LogAbsent false TimeoutExpired
                busy " Check the Weather " "isolated" None
    = (inr r,
       {| recent_tasks := ["t1"; "t2"; "t3"; "t4"; "t5"; "t6"; "t7"; "t8"; "t9";
                           "check the weather"];
          stderr_out := [] |}).
Proof. eexists. vm_compute. reflexivity. Qed.

Example spawn_agent_no_rules_raises :
  spawn_agent MiniJson.loads no_str no_rules LogAbsent false TimeoutExpired
              fresh "check the weather" "isolated" None
  = (inl (ValueError "No model found for tier: FAST"), fresh).
Proof. vm_compute. reflexivity. Qed.

Example spawn_agent_routes_and_tracks :
  spawn_agent MiniJson.loads no_str two_fallbacks LogAbsent false TimeoutExpired
              fresh "  Check the Weather " "isolated" (Some "wx")
  = (inr (Routed [("task", JStr "  Check the Weather ");
                  ("model", JStr (id flash));
                  ("sessionTarget", JStr "isolated");
                  ("label", JStr "wx")]
                 (recommend_model two_fallbacks "  Check the Weather ")),
     {| recent_tasks := ["check the weather"]; stderr_out := [] |}).
Proof. vm_compute. reflexivity. Qed.

(* ================================================================== *)
(** ** The spawn output and the gateway configuration *)

Section SpawnOutput.
Variable json_loads : string -> option json.
Variable py_str : json -> string.


(** The parameters [spawn_agent] returns carry no gateway key. *)
Lemma spawn_params_no_gateway_key
      (config : Config) (log : LogFile) (facepalm_exists : bool)
      (facepalm_run : proc) (self : Router)
      (task session_target : string) (label : option string)
      (result : SpawnResult) (k : string) :
  fst (spawn_agent json_loads py_str config log facepalm_exists facepalm_run
                   self task session_target label) = inr result ->
  In k gateway_keys ->
  ODict.get k (result_params result) = None.
Proof.
  unfold spawn_agent.
  set (rcm := recommend_model config task). clearbody rcm.
  destruct (_detect_troubleshooting_loop log (recent_tasks self) task)
    as [e0|[is_loop loop_reason]]; [discriminate|].
  destruct (if is_loop
            then _invoke_facepalm json_loads facepalm_exists facepalm_run
            else (JNull, None)) as [diagnosis error].
  intros Hres Hk.
  assert (Hkeys : k = "gatewayToken" \/ k = "gatewayPassword" \/
                  k = "gatewayAuthMode" \/ k = "gatewayPort").
  { unfold gateway_keys in Hk. cbn [In] in Hk.
    destruct Hk as [<- | [<- | [<- | [<- | []]]]]; tauto. }
  clear Hk.
  destruct (is_loop && Py.truthy diagnosis).
  - cbn [fst] in Hres.
    destruct (Py.get diagnosis "diagnosis" (JStr (py_str diagnosis)))
      as [e|text]; cbn [Py.bind] in Hres; [discriminate|].
    injection Hres as Hr. rewrite <- Hr. cbn [result_params].
    destruct Hkeys as [-> | [-> | [-> | ->]]]; reflexivity.
  - cbv zeta in Hres.
    destruct (rec_model rcm) as [model|]; cbn [fst] in Hres; [|discriminate].
    injection Hres as Hr. rewrite <- Hr. cbn [result_params].
    destruct label as [l|]; [destruct (PyStr.truthy l)|];
      destruct Hkeys as [-> | [-> | [-> | ->]]]; reflexivity.
Qed.


End SpawnOutput.



(** With a readable configuration the connection parameters are added. *)
Example spawn_json_with_gateway_config :
  main_spawn_json MiniJson.loads
    (Routed [("task", JStr "t"); ("model", JStr "m"); ("sessionTarget", JStr "isolated")]
            (recommend_model two_fallbacks "t"))
    (FileContent ("{" ++ quoted "gateway" ++ ": {" ++ quoted "port" ++ ": 18789, "
                  ++ quoted "auth" ++ ": {" ++ quoted "mode" ++ ": " ++ quoted "token"
                  ++ ", " ++ quoted "token" ++ ": " ++ quoted "abc" ++ "}}}")%string)
  = inr [("task", JStr "t"); ("model", JStr "m"); ("sessionTarget", JStr "isolated");
         ("gatewayToken", JStr "abc"); ("gatewayAuthMode", JStr "token");
         ("gatewayPort", JInt 18789)].
Proof. vm_compute. reflexivity. Qed.

(* ================================================================== *)
(** ** The watchdog tick *)

Section WatchdogFacts.
Import Watchdog.
Variable json_loads : string -> option json.

Lemma truthy_strip_empty (s : string) :
  PyStr.truthy s = false <-> s = "".
Proof. destruct s; simpl; split; congruence. Qed.

(** [check_status] case by case: its events and its result. *)
Lemma check_status_cases (w : World) :
  check_status json_loads w =
  if negb (guard_exists w) then ([Log (GuardNotFound (guard w))], inr JNull)
  else
    match status_run w with
    | Completed returncode stdout _ =>
        if match returncode with None => true | Some _ => false end
           || negb (PyStr.truthy (PyStr.strip stdout))
        then ([Run (status_cmd w) 12], inr JNull)
        else match json_loads (PyStr.strip stdout) with
             | Some v => ([Run (status_cmd w) 12], inr v)
             | None => ([Run (status_cmd w) 12;
                         Log (StatusCheckFailed JSONDecodeError)], inr JNull)
             end
    | TimeoutExpired =>
        ([Run (status_cmd w) 12; Log (StatusCheckFailed TimeoutExpiredError)],
         inr JNull)
    | FileNotFoundError msg =>
        ([Run (status_cmd w) 12; Log (StatusCheckFailed (FileNotFoundErr msg))],
         inr JNull)
    | OtherException msg => ([Run (status_cmd w) 12], inl (OtherError msg))
    end.
Proof.
  unfold check_status. destruct (negb (guard_exists w)); [reflexivity|].
  destruct (status_run w) as [returncode stdout stderr| |msg|msg];
    try reflexivity.
  unfold _run, catch, bind, emit, ret, loads. cbn [app].
  destruct (match returncode with None => true | Some _ => false end
            || negb (PyStr.truthy (PyStr.strip stdout))); [reflexivity|].
  destruct (json_loads (PyStr.strip stdout)); reflexivity.
Qed.

(** The status check has no result exactly for the listed reasons. *)
Lemma check_status_unknown (w : World) (result : json) :
  snd (check_status json_loads w) = inr result ->
  (result = JNull <-> status_unknown json_loads w).
Proof.
  rewrite check_status_cases. unfold status_unknown.
  destruct (guard_exists w); cbn [negb].
  2:{ intros [= <-]. split; [now left | reflexivity]. }
  destruct (status_run w) as [returncode stdout stderr| |msg|msg].
  - destruct returncode as [rc|]; cbn [orb].
    + destruct (PyStr.truthy (PyStr.strip stdout)) eqn:Ht; cbn [negb].
      * destruct (json_loads (PyStr.strip stdout)) as [v|] eqn:Hl; cbn [snd].
        -- intros [= <-]. split.
           ++ intros ->. right. right. right. now right.
           ++ intros [Hg|[Hrc|[Hs|[Hn|Hj]]]]; try discriminate.
              ** rewrite Hs in Ht. discriminate.
              ** now injection Hj.
        -- intros [= <-]. split; [|reflexivity].
           intros _. right. right. right. now left.
      * cbn [snd]. intros [= <-]. split; [|reflexivity].
        intros _. right. right. left. now apply truthy_strip_empty.
    + cbn [snd]. intros [= <-]. split; [|reflexivity].
      intros _. right. now left.
  - cbn [snd]. intros [= <-]. split; [intros _; now right | reflexivity].
  - cbn [snd]. intros [= <-]. split; [intros _; now right | reflexivity].
  - cbn [snd]. discriminate.
Qed.

Lemma cmds_bind {A B} (m : M A) (f : A -> M B) :
  cmds (bind m f) =
  cmds m ++ match snd m with inr a => cmds (f a) | inl _ => [] end.
Proof.
  unfold cmds, bind. destruct m as [tr [e|a]]; cbn [fst snd].
  - now rewrite app_nil_r.
  - destruct (f a) as [tr' r]. cbn [fst]. apply filter_app.
Qed.

(** The commands of a recovery: the status command first; all three, in
    order, when the two blocking ones end without a stray exception. *)
Lemma run_recovery_cmds (w : World) :
  hd_error (cmds (run_recovery w)) = Some (Run (status_cmd w) 12) /\
  (passes (recovery_status_run w) -> passes (ensure_run w) ->
   cmds (run_recovery w) =
   [Run (status_cmd w) 12; Run (ensure_cmd w) 25; Popen gateway_cmd]).
Proof.
  unfold run_recovery.
  destruct (recovery_status_run w) as [rc1 out1 err1| |msg1|msg1];
    destruct (ensure_run w) as [rc2 out2 err2| |msg2|msg2];
    try destruct (PyStr.truthy out2) eqn:Ht;
    destruct (gateway_launch w);
    unfold passes, cmds, _run, catch, bind, emit, ret, raise;
    cbn [snd app fst]; try rewrite Ht; cbn [filter app fst is_cmd hd_error];
    (split; [reflexivity | intros; (reflexivity || contradiction)]).
Qed.

(** C3, as the code has it.  On a tick whose status check yields no
    result or a JSON object, the check has no result exactly when the
    guard script is missing, the status command timed out, could not be
    started, left no return code, printed only blanks, or printed
    something that is not JSON or is [null] (a non-zero return code alone
    does not count); the recovery sequence runs, once, exactly when there
    is no result or the object's [ok] is absent or false; with a true [ok]
    the tick runs no recovery command. *)
Theorem tick_recovery_iff (w : World) (result : json) :
  snd (check_status json_loads w) = inr result ->
  result = JNull \/ (exists d, result = JObj d) ->
  (result = JNull <-> status_unknown json_loads w) /\
  cmds (tick json_loads w) =
    cmds (check_status json_loads w)
    ++ (if needs_recovery result then cmds (run_recovery w) else []) /\
  hd_error (cmds (run_recovery w)) = Some (Run (status_cmd w) 12) /\
  (passes (recovery_status_run w) -> passes (ensure_run w) ->
   cmds (run_recovery w) =
   [Run (status_cmd w) 12; Run (ensure_cmd w) 25; Popen gateway_cmd]).
Proof.
  intros Hres Hshape.
  split; [now apply check_status_unknown|].
  split; [|apply run_recovery_cmds].
  unfold tick. rewrite cmds_bind, Hres. f_equal.
  destruct Hshape as [-> | [d ->]].
  - cbn [Py.is_none needs_recovery orb].
    rewrite cmds_bind. reflexivity.
  - cbn [Py.is_none needs_recovery orb ok_value Py.get].
    rewrite cmds_bind. cbn [lift snd cmds fst filter app].
    destruct (ODict.get "ok" d) as [v|]; cbn [negb Py.truthy];
      [destruct (Py.truthy v); cbn [negb]|];
      try reflexivity;
      rewrite !cmds_bind; unfold lift; cbn [snd];
      rewrite cmds_bind; reflexivity.
Qed.

End WatchdogFacts.

Lemma tick_recovery_iff_witness :
  let w := status_world 0 (ok_doc "false") in
  (JObj [("ok", JBool false)] = JNull <-> status_unknown MiniJson.loads w) /\
  Watchdog.cmds (Watchdog.tick MiniJson.loads w) =
    Watchdog.cmds (Watchdog.check_status MiniJson.loads w)
    ++ (if needs_recovery (JObj [("ok", JBool false)])
        then Watchdog.cmds (Watchdog.run_recovery w) else []) /\
  hd_error (Watchdog.cmds (Watchdog.run_recovery w))
  = Some (Watchdog.Run (Watchdog.status_cmd w) 12) /\
  (passes (Watchdog.recovery_status_run w) -> passes (Watchdog.ensure_run w) ->
   Watchdog.cmds (Watchdog.run_recovery w) =
   [Watchdog.Run (Watchdog.status_cmd w) 12;
    Watchdog.Run (Watchdog.ensure_cmd w) 25;
    Watchdog.Popen Watchdog.gateway_cmd]).
Proof.
  apply (tick_recovery_iff MiniJson.loads (status_world 0 (ok_doc "false"))).
  - vm_compute. reflexivity.
  - right. eexists. reflexivity.
Defined.

(** C3 fails as stated: the status command ends with return code 1 and
    prints an object whose [ok] is true; the tick runs the status command
    and nothing else, although the return code is not zero. *)
Lemma nonzero_exit_counterexample :
  Watchdog.status_run (status_world 1 (ok_doc "true"))
  = Completed (Some 1%Z) (ok_doc "true") "" /\
  Watchdog.tick MiniJson.loads (status_world 1 (ok_doc "true"))
  = ([Watchdog.Run (Watchdog.status_cmd (status_world 1 (ok_doc "true"))) 12],
     inr tt).
Proof. vm_compute. split; reflexivity. Qed.

(** An explicit [ok: false] and an unparseable answer both start the full
    recovery, once. *)
Example tick_not_ok_recovers :
  Watchdog.cmds (Watchdog.tick MiniJson.loads (status_world 0 (ok_doc "false")))
  = let w := status_world 0 (ok_doc "false") in
    [Watchdog.Run (Watchdog.status_cmd w) 12;
     Watchdog.Run (Watchdog.status_cmd w) 12;
     Watchdog.Run (Watchdog.ensure_cmd w) 25;
     Watchdog.Popen Watchdog.gateway_cmd].
Proof. vm_compute. reflexivity. Qed.

Example tick_unparseable_recovers :
  Watchdog.cmds (Watchdog.tick MiniJson.loads (status_world 0 "not json"))
  = let w := status_world 0 "not json" in
    [Watchdog.Run (Watchdog.status_cmd w) 12;
     Watchdog.Run (Watchdog.status_cmd w) 12;
     Watchdog.Run (Watchdog.ensure_cmd w) 25;
     Watchdog.Popen Watchdog.gateway_cmd].
Proof. vm_compute. reflexivity. Qed.

(** A status answer that is JSON but not an object ends the tick with an
    exception, before any recovery. *)
Example tick_array_raises :
  Watchdog.tick MiniJson.loads (status_world 0 "[]")
  = ([Watchdog.Run (Watchdog.status_cmd (status_world 0 "[]")) 12],
     inl AttributeError).
Proof. vm_compute. reflexivity. Qed.

(* ================================================================== *)
(** ** The classifier: further properties *)

(** The result of the vision exit. *)
Lemma classify_details_on_vision (task : string) :
  on_vision_path task = true ->
  classify_details task =
  {| tier := VISION;
     confidence := Qmin (of_nat_Q (_keyword_match task vision_keywords) / 3) 1;
     tier_scores := [(VISION, _keyword_match task vision_keywords)];
     is_agentic := false |}.
Proof. unfold on_vision_path, classify_details. now intros ->. Qed.

Lemma vision_confidence_range (n : nat) :
  0 < n -> (0 < Qmin (of_nat_Q n / 3) 1 <= 1)%Q.
Proof.
  intros Hn. split; [|apply Q.le_min_r].
  apply Q.min_glb_lt; [|reflexivity].
  unfold of_nat_Q, Qdiv, Qlt. simpl. lia.
Qed.

(** X1.  A task with a vision keyword is classified VISION whatever else it
    contains: the result holds the VISION tally alone, is never agentic, and
    its confidence is min(n/3, 1) for the number n of vision keywords, hence
    above 0 and at most 1. *)
Theorem vision_overrides (task : string) :
  on_vision_path task = true ->
  let n := _keyword_match task vision_keywords in
  tier (classify_details task) = VISION /\
  tier_scores (classify_details task) = [(VISION, n)] /\
  is_agentic (classify_details task) = false /\
  confidence (classify_details task) = Qmin (of_nat_Q n / 3) 1 /\
  (0 < confidence (classify_details task) <= 1)%Q.
Proof.
  intros Hv n. rewrite (classify_details_on_vision _ Hv).
  cbn [tier tier_scores is_agentic confidence]. fold n.
  repeat split; try reflexivity; apply vision_confidence_range;
    unfold on_vision_path in Hv; now apply Nat.ltb_lt.
Qed.

Lemma vision_overrides_witness :
  let task := "fix the website, then describe what the screenshot shows" in
  let n := _keyword_match task vision_keywords in
  tier (classify_details task) = VISION /\
  tier_scores (classify_details task) = [(VISION, n)] /\
  is_agentic (classify_details task) = false /\
  confidence (classify_details task) = Qmin (of_nat_Q n / 3) 1 /\
  (0 < confidence (classify_details task) <= 1)%Q.
Proof.
  apply (@vision_overrides "fix the website, then describe what the screenshot shows").
  vm_compute. reflexivity.
Defined.

(** Rounding to three decimals leaves min(n/5, 1) as it is. *)
Lemma round_fifths (n : nat) :
  (py_round3 (Qmin (of_nat_Q n / 5) 1) == Qmin (of_nat_Q n / 5) 1)%Q.
Proof.
  unfold Qmin, GenericMinMax.gmin.
  destruct (Qcompare (of_nat_Q n / 5) 1) eqn:Hc.
  - apply Qeq_alt in Hc. unfold of_nat_Q, Qdiv, Qeq in Hc. simpl in Hc.
    assert (n = 5) by lia. subst n. vm_compute. reflexivity.
  - apply Qlt_alt in Hc. unfold of_nat_Q, Qdiv, Qlt in Hc. simpl in Hc.
    assert (Hn : n < 5) by lia.
    do 5 (destruct n as [|n]; [vm_compute; reflexivity|]). lia.
  - vm_compute. reflexivity.
Qed.

Lemma values_table (a : Tier -> nat) :
  ODict.values (table a) = map a categories.
Proof. unfold ODict.values, table. now rewrite map_map. Qed.

(** Off the vision path the confidence is min(m/5, 1). *)
Lemma confidence_fifths (task : string) :
  on_vision_path task = false ->
  (confidence (classify_details task) == Qmin (of_nat_Q (max_score task) / 5) 1)%Q.
Proof.
  intros Hv. rewrite (confidence_scored _ Hv), values_table.
  fold (max_score task). apply round_fifths.
Qed.

(** X2.  The confidence of every classification lies between 0 and 1; off
    the vision path it is min(m/5, 1) for the highest adjusted tally m: the
    rounding to three decimals never changes it. *)
Theorem confidence_bounds (task : string) :
  (0 <= confidence (classify_details task) <= 1)%Q /\
  (on_vision_path task = false ->
   (confidence (classify_details task) == Qmin (of_nat_Q (max_score task) / 5) 1)%Q).
Proof.
  assert (Hfifth : forall m, (0 <= Qmin (of_nat_Q m / 5) 1 <= 1)%Q).
  { intros m. split; [|apply Q.le_min_r].
    apply Q.min_glb; [|discriminate].
    unfold of_nat_Q, Qdiv, Qle. simpl. lia. }
  destruct (on_vision_path task) eqn:Hv.
  - split; [|discriminate].
    rewrite (classify_details_on_vision _ Hv). cbn [confidence].
    unfold on_vision_path in Hv. apply Nat.ltb_lt in Hv.
    destruct (vision_confidence_range Hv) as [Hlo Hhi].
    split; [now apply Qlt_le_weak | exact Hhi].
  - split; [|intros _; now apply confidence_fifths].
    rewrite (confidence_fifths _ Hv). apply Hfifth.
Qed.

Lemma lower_char_idempotent (a : ascii) :
  PyStr.lower_char (PyStr.lower_char a) = PyStr.lower_char a.
Proof. destruct a as [[] [] [] [] [] [] [] []]; reflexivity. Qed.

Lemma lower_idempotent (s : string) : PyStr.lower (PyStr.lower s) = PyStr.lower s.
Proof.
  induction s as [|a s IH]; [reflexivity|].
  cbn [PyStr.lower]. now rewrite lower_char_idempotent, IH.
Qed.

Lemma keyword_match_lower (task : string) (keywords : list string) :
  _keyword_match (PyStr.lower task) keywords = _keyword_match task keywords.
Proof. unfold _keyword_match. now rewrite lower_idempotent. Qed.

(** X3.  The classification does not depend on the case of the task: a task
    and its lower-cased form get the same tier, confidence, tallies and
    agentic flag. *)
Theorem classification_ignores_case (task : string) :
  classify_details (PyStr.lower task) = classify_details task.
Proof.
  unfold classify_details, raw_scores, agentic, agentic_count, is_multi_step,
    select_tier.
  rewrite !keyword_match_lower, lower_idempotent. reflexivity.
Qed.

Lemma filter_keys_NoDup {V} (p : Tier * V -> bool) (d : list (Tier * V)) :
  NoDup (map fst d) -> NoDup (map fst (filter p d)).
Proof.
  induction d as [|kv d IH]; simpl; [constructor|].
  intros Hnd. inversion Hnd as [|? ? Hnotin Hnd']; subst.
  destruct (p kv); simpl; [|now apply IH].
  constructor; [|now apply IH].
  intros Hin. apply Hnotin.
  apply in_map_iff in Hin. destruct Hin as [kv' [Hfst Hin]].
  apply filter_In in Hin. apply in_map_iff. exists kv'. tauto.
Qed.

(** X4.  The returned [tier_scores] is sparse and well formed: every stored
    value is positive, no category is stored twice, and only the seven
    tallied categories occur (QUALITY never does). *)
Theorem tier_scores_sparse (task : string) :
  let ts := tier_scores (classify_details task) in
  (forall c v, In (c, v) ts -> 0 < v /\ In c categories) /\
  NoDup (ODict.keys ts) /\
  ODict.get QUALITY ts = None.
Proof.
  destruct (on_vision_path task) eqn:Hv.
  - cbv zeta. rewrite (classify_details_on_vision _ Hv). cbn [tier_scores].
    split; [|split].
    + intros c v [[= <- <-]|[]]. split; [|simpl; tauto].
      unfold on_vision_path in Hv. now apply Nat.ltb_lt.
    + repeat constructor. simpl. tauto.
    + reflexivity.
  - cbv zeta. rewrite (tier_scores_scored _ Hv). split; [|split].
    + intros c v Hin. unfold ODict.filter_values in Hin.
      apply filter_In in Hin. destruct Hin as [Hin Hpos]. cbn [snd] in Hpos.
      split; [now apply Nat.ltb_lt|].
      unfold table in Hin. apply in_map_iff in Hin.
      destruct Hin as [c' [[= <- _] Hc']]. exact Hc'.
    + unfold ODict.keys, ODict.filter_values. apply filter_keys_NoDup.
      apply table_keys_NoDup.
    + rewrite get_filter_values by apply table_keys_NoDup. reflexivity.
Qed.

(** Each category of a table is tallied as the table says. *)
Lemma py_max_table_ge (a : Tier -> nat) (c : Tier) :
  In c categories -> a c <= py_max (ODict.values (table a)).
Proof.
  intros Hc. apply py_max_ge. rewrite values_table. now apply in_map.
Qed.

Lemma select_tier_agentic (task : string) (a : Tier -> nat) :
  a FAST = 0 -> 2 <= a CODE -> select_tier task (table a) <> FAST.
Proof.
  intros Hfast Hcode. unfold select_tier.
  assert (Hmax : (py_max (ODict.values (table a)) =? 0) = false).
  { apply Nat.eqb_neq.
    pose proof (@py_max_table_ge a CODE ltac:(simpl; tauto)) as Hge. lia. }
  rewrite Hmax.
  assert (Hbest : py_max_key FAST (table a) <> FAST).
  { unfold table, categories; simpl map. unfold py_max_key.
    match goal with |- context [py_max_key_from ?b ?v ?d] =>
      destruct (@py_max_key_from_moves _ d b v) as [v' [Hin Hlt]] end.
    - exists CODE, (a CODE). split; [simpl; tauto | lia].
    - match type of Hin with In (?r, _) _ => generalize dependent r end.
      intros r Hin. simpl in Hin.
      repeat (destruct Hin as [Hin | Hin];
              [injection Hin as Hk _; subst r; discriminate|]).
      destruct Hin. }
  revert Hbest. generalize (py_max_key FAST (table a)) as best.
  intros best Hbest.
  rewrite !score_table. simpl tier_eqb at 2 3 4 5 6. cbv iota zeta.
  rewrite Hfast, Nat.ltb_irrefl, andb_false_r.
  destruct (0 <? _keyword_match task website_project_keywords); [discriminate|].
  destruct best; simpl; try discriminate; try contradiction.
  destruct (0 <? a CODE); discriminate.
Qed.

(** X5.  A classification flagged agentic is never FAST: its tallies hold
    CODE with the raw count plus 2 and no FAST entry, and its confidence is
    at least 2/5. *)
Theorem agentic_flag_effects (task : string) :
  is_agentic (classify_details task) = true ->
  tier (classify_details task) <> FAST /\
  ODict.get CODE (tier_scores (classify_details task))
  = Some (raw_count task CODE + 2) /\
  ODict.get FAST (tier_scores (classify_details task)) = None /\
  (2 # 5 <= confidence (classify_details task))%Q.
Proof.
  intros Hflag.
  assert (Hv : on_vision_path task = false).
  { destruct (on_vision_path task) eqn:Hv; [|reflexivity].
    rewrite (classify_details_on_vision _ Hv) in Hflag. discriminate. }
  assert (Hag : agentic task = true).
  { rewrite (classify_details_scored _ Hv) in Hflag. exact Hflag. }
  assert (Hfast : adjusted_count task FAST = 0)
    by (unfold adjusted_count; now rewrite Hag).
  assert (Hcode : adjusted_count task CODE = raw_count task CODE + 2)
    by (unfold adjusted_count; now rewrite Hag).
  split; [|split; [|split]].
  - rewrite (tier_scored _ Hv). apply select_tier_agentic; lia.
  - rewrite (tier_scores_scored _ Hv).
    rewrite get_filter_values by apply table_keys_NoDup.
    rewrite get_table. cbn [tier_eqb]. rewrite Hcode.
    replace (0 <? raw_count task CODE + 2) with true; [reflexivity|].
    symmetry. apply Nat.ltb_lt. lia.
  - rewrite (tier_scores_scored _ Hv).
    rewrite get_filter_values by apply table_keys_NoDup.
    rewrite get_table. cbn [tier_eqb]. now rewrite Hfast.
  - rewrite (confidence_fifths _ Hv).
    apply Q.min_glb; [|discriminate].
    assert (Hm : 2 <= max_score task).
    { unfold max_score. rewrite <- values_table.
      pose proof (@py_max_table_ge (adjusted_count task) CODE
                    ltac:(simpl; tauto)) as Hge.
      lia. }
    unfold of_nat_Q, Qdiv, Qle. simpl. lia.
Qed.

Lemma agentic_flag_effects_witness :
  let task := "check the status, then run the tests" in
  tier (classify_details task) <> FAST /\
  ODict.get CODE (tier_scores (classify_details task))
  = Some (raw_count task CODE + 2) /\
  ODict.get FAST (tier_scores (classify_details task)) = None /\
  (2 # 5 <= confidence (classify_details task))%Q.
Proof.
  apply (@agentic_flag_effects "check the status, then run the tests").
  vm_compute. reflexivity.
Defined.

(** A running best that nothing beats stays. *)
Lemma py_max_key_from_stays {K} (d : list (K * nat)) (best : K) (bv : nat) :
  (forall k v, In (k, v) d -> v <= bv) -> py_max_key_from best bv d = best.
Proof.
  revert best bv. induction d as [|[k v] d IH]; intros best bv Hle; simpl;
    [reflexivity|].
  destruct (Nat.ltb_spec bv v) as [Hlt|_].
  - specialize (Hle k v (or_introl eq_refl)). lia.
  - apply IH. intros k' v' Hin. apply (Hle k' v'). now right.
Qed.

(** The arg-max moves to the first entry that beats everything before it
    and is not beaten afterwards. *)
Lemma py_max_key_from_first {K} (d1 d2 : list (K * nat)) (k : K) (v : nat)
      (best : K) (bv : nat) :
  bv < v ->
  (forall k' v', In (k', v') d1 -> v' < v) ->
  (forall k' v', In (k', v') d2 -> v' <= v) ->
  py_max_key_from best bv (d1 ++ (k, v) :: d2) = k.
Proof.
  revert best bv. induction d1 as [|[k1 v1] d1 IH]; intros best bv Hbv H1 H2.
  - simpl. apply Nat.ltb_lt in Hbv. rewrite Hbv.
    now apply py_max_key_from_stays.
  - simpl. pose proof (H1 k1 v1 (or_introl eq_refl)) as Hv1.
    destruct (bv <? v1); apply IH; try assumption;
      intros k' v' Hin; apply (H1 k' v'); now right.
Qed.

(** The arg-max of a table is the category whose tally is maximal and
    strictly above the tally of every category stored before it. *)
Lemma py_max_key_first_max (a : Tier -> nat) (c : Tier) :
  In c categories ->
  (forall c', In c' categories -> a c' <= a c) ->
  (forall c', In c' categories -> tier_rank c' < tier_rank c -> a c' < a c) ->
  py_max_key FAST (table a) = c.
Proof.
  intros Hc Hmax Hfirst.
  assert (Hle : forall c' v, In (c', v) (table a) -> v <= a c).
  { intros c' v Hin. unfold table in Hin. apply in_map_iff in Hin.
    destruct Hin as [c0 [[= <- <-] Hc0]]. now apply Hmax. }
  assert (Hlt : forall c' v, In (c', v) (table a) ->
                             tier_rank c' < tier_rank c -> v < a c).
  { intros c' v Hin. unfold table in Hin. apply in_map_iff in Hin.
    destruct Hin as [c0 [[= <- <-] Hc0]]. now apply Hfirst. }
  unfold table, categories in *. simpl map in *. unfold py_max_key.
  simpl in Hc.
  destruct Hc as [<- | [<- | [<- | [<- | [<- | [<- | [<- | []]]]]]]].
  - apply py_max_key_from_stays. intros k v Hin. apply (Hle k v). now right.
  - apply (@py_max_key_from_first _ [] _ REASONING).
    + apply (Hlt FAST); [now left | simpl; lia].
    + intros k' v' [].
    + intros k' v' Hin. apply (Hle k' v'). simpl in *. tauto.
  - apply (@py_max_key_from_first _ [(REASONING, a REASONING)] _ CREATIVE).
    + apply (Hlt FAST); [now left | simpl; lia].
    + intros k' v' [[= <- <-]|[]].
      apply (Hlt REASONING); [simpl; tauto | simpl; lia].
    + intros k' v' Hin. apply (Hle k' v'). simpl in *. tauto.
  - apply (@py_max_key_from_first _
             [(REASONING, a REASONING); (CREATIVE, a CREATIVE)] _ RESEARCH).
    + apply (Hlt FAST); [now left | simpl; lia].
    + intros k' v' [[= <- <-]|[[= <- <-]|[]]];
        [apply (Hlt REASONING) | apply (Hlt CREATIVE)]; simpl; (tauto || lia).
    + intros k' v' Hin. apply (Hle k' v'). simpl in *. tauto.
  - apply (@py_max_key_from_first _
             [(REASONING, a REASONING); (CREATIVE, a CREATIVE);
              (RESEARCH, a RESEARCH)] _ CODE).
    + apply (Hlt FAST); [now left | simpl; lia].
    + intros k' v' [[= <- <-]|[[= <- <-]|[[= <- <-]|[]]]];
        [apply (Hlt REASONING) | apply (Hlt CREATIVE) | apply (Hlt RESEARCH)];
        simpl; (tauto || lia).
    + intros k' v' Hin. apply (Hle k' v'). simpl in *. tauto.
  - apply (@py_max_key_from_first _
             [(REASONING, a REASONING); (CREATIVE, a CREATIVE);
              (RESEARCH, a RESEARCH); (CODE, a CODE)] _ COMPLEX).
    + apply (Hlt FAST); [now left | simpl; lia].
    + intros k' v' [[= <- <-]|[[= <- <-]|[[= <- <-]|[[= <- <-]|[]]]]];
        [apply (Hlt REASONING) | apply (Hlt CREATIVE) | apply (Hlt RESEARCH)
         | apply (Hlt CODE)];
        simpl; (tauto || lia).
    + intros k' v' Hin. apply (Hle k' v'). simpl in *. tauto.
  - apply (@py_max_key_from_first _
             [(REASONING, a REASONING); (CREATIVE, a CREATIVE);
              (RESEARCH, a RESEARCH); (CODE, a CODE); (COMPLEX, a COMPLEX)]
             [] VISION).
    + apply (Hlt FAST); [now left | simpl; lia].
    + intros k' v' [[= <- <-]|[[= <- <-]|[[= <- <-]|[[= <- <-]|[[= <- <-]|[]]]]]];
        [apply (Hlt REASONING) | apply (Hlt CREATIVE) | apply (Hlt RESEARCH)
         | apply (Hlt CODE) | apply (Hlt COMPLEX)];
        simpl; (tauto || lia).
    + intros k' v' [].
Qed.

Ltac score_consts :=
  change (tier_eqb COMPLEX QUALITY) with false;
  change (tier_eqb FAST QUALITY) with false;
  change (tier_eqb CODE QUALITY) with false;
  cbv iota.

(** X6.  Without a website keyword and with the COMPLEX-versus-FAST rule
    silent, the tier is the category with the highest tally, ties going to
    the one stored first (FAST, REASONING, CREATIVE, RESEARCH, CODE,
    COMPLEX); a winning COMPLEX is reported as CODE when the CODE tally is
    positive and as QUALITY otherwise. *)
Theorem tier_is_first_maximum (task : string) (c : Tier) :
  on_vision_path task = false ->
  has_website_keyword task = false ->
  complex_fast_rule_fires task = false ->
  In c categories ->
  0 < adjusted_count task c ->
  (forall c', In c' categories -> adjusted_count task c' <= adjusted_count task c) ->
  (forall c', In c' categories -> tier_rank c' < tier_rank c ->
              adjusted_count task c' < adjusted_count task c) ->
  tier (classify_details task) = resolve_complex task c.
Proof.
  intros Hv Hweb Hrule Hc Hpos Hmax Hfirst.
  rewrite (tier_scored _ Hv). unfold select_tier.
  assert (Hnz : (py_max (ODict.values (table (adjusted_count task))) =? 0) = false).
  { apply Nat.eqb_neq.
    pose proof (@py_max_table_ge (adjusted_count task) c Hc). lia. }
  rewrite Hnz, (py_max_key_first_max _ Hc Hmax Hfirst).
  unfold has_website_keyword in Hweb. rewrite Hweb.
  rewrite !score_table. score_consts.
  unfold complex_fast_rule_fires in Hrule.
  assert (Hres : (if tier_eqb c COMPLEX
                  then if 0 <? adjusted_count task CODE then CODE else QUALITY
                  else c) = resolve_complex task c).
  { destruct c; reflexivity. }
  rewrite Hres.
  destruct (0 <? adjusted_count task COMPLEX), (0 <? adjusted_count task FAST);
    simpl in Hrule |- *; try reflexivity.
  rewrite Hrule. reflexivity.
Qed.

Lemma tier_is_first_maximum_witness :
  let task := "explain the proof and write a poem" in
  adjusted_count task REASONING = 2 /\ adjusted_count task CREATIVE = 2 /\
  tier (classify_details task) = resolve_complex task REASONING.
Proof.
  split; [vm_compute; reflexivity|]. split; [vm_compute; reflexivity|].
  apply (@tier_is_first_maximum "explain the proof and write a poem" REASONING);
    try (vm_compute; reflexivity).
  - simpl. tauto.
  - vm_compute. lia.
  - intros c' Hc'. simpl in Hc'.
    repeat (destruct Hc' as [<- | Hc']; [vm_compute; lia|]). destruct Hc'.
  - intros c' Hc' Hr. simpl in Hc'.
    repeat (destruct Hc' as [<- | Hc']; [vm_compute in Hr |- *; lia|]). destruct Hc'.
Defined.

(** X7.  Off the vision path, when COMPLEX and FAST both score above 0 (after
    the agentic adjustment) with COMPLEX at least FAST, the tier is QUALITY
    if COMPLEX scores 2 or more and CODE otherwise, whatever the other
    tallies and whether or not a website keyword occurs. *)
Theorem complex_fast_rule_decides (task : string) :
  on_vision_path task = false ->
  complex_fast_rule_fires task = true ->
  tier (classify_details task) =
  if 2 <=? adjusted_count task COMPLEX then QUALITY else CODE.
Proof.
  intros Hv Hrule. rewrite (tier_scored _ Hv). unfold select_tier.
  rewrite !score_table. score_consts.
  unfold complex_fast_rule_fires in Hrule.
  apply andb_true_iff in Hrule. destruct Hrule as [Hrule Hle].
  rewrite Hrule, Hle. reflexivity.
Qed.

Lemma complex_fast_rule_decides_witness :
  let task := "build a simple website" in
  has_website_keyword task = true /\
  tier (classify_details task) =
  if 2 <=? adjusted_count task COMPLEX then QUALITY else CODE.
Proof.
  split; [vm_compute; reflexivity|].
  apply (@complex_fast_rule_decides "build a simple website");
    vm_compute; reflexivity.
Defined.

(** X8.  QUALITY is only ever reported for a task that contains a COMPLEX
    keyword. *)
Theorem quality_needs_complex_keyword (task : string) :
  tier (classify_details task) = QUALITY -> 0 < raw_count task COMPLEX.
Proof.
  destruct (on_vision_path task) eqn:Hv.
  { rewrite (classify_details_vision _ Hv). discriminate. }
  rewrite (tier_scored _ Hv). unfold select_tier.
  assert (Hcx : adjusted_count task COMPLEX = raw_count task COMPLEX).
  { unfold adjusted_count. now destruct (agentic task). }
  rewrite <- Hcx. set (a := adjusted_count task).
  rewrite !score_table. score_consts.
  destruct (0 <? a COMPLEX) eqn:Hpos; [intros _; now apply Nat.ltb_lt|].
  cbn [andb].
  assert (Hbest : (if py_max (ODict.values (table a)) =? 0 then FAST
                   else py_max_key FAST (table a)) <> COMPLEX /\
                  (if py_max (ODict.values (table a)) =? 0 then FAST
                   else py_max_key FAST (table a)) <> QUALITY).
  { destruct (py_max (ODict.values (table a)) =? 0); [split; discriminate|].
    destruct (py_max_key_table a) as [-> | [c [-> [Hin [_ Hlt]]]]];
      [split; discriminate|].
    apply Nat.ltb_ge in Hpos.
    split; intros ->; [lia | simpl in Hin; intuition discriminate]. }
  revert Hbest.
  generalize (if py_max (ODict.values (table a)) =? 0 then FAST
              else py_max_key FAST (table a)) as best.
  intros best [Hc Hq].
  destruct (0 <? _keyword_match task website_project_keywords);
    [discriminate|].
  destruct best; simpl; try discriminate; contradiction.
Qed.

Lemma quality_needs_complex_keyword_witness :
  0 < raw_count "design a comprehensive system" COMPLEX.
Proof.
  apply quality_needs_complex_keyword. vm_compute. reflexivity.
Defined.

(* ================================================================== *)
(** ** The model resolver: further properties *)

Lemma find_model_sound (models : list ModelDescriptor) (wanted : option string)
      (m : ModelDescriptor) :
  find_model models wanted = Some m -> In m models /\ wanted = Some (id m).
Proof.
  destruct wanted as [w|]; simpl; [|discriminate].
  intros Hf. apply find_some in Hf. destruct Hf as [Hin Heq].
  apply String.eqb_eq in Heq. now subst w.
Qed.

Lemma find_model_complete (models : list ModelDescriptor) (m : ModelDescriptor) :
  In m models -> find_model models (Some (id m)) <> None.
Proof.
  intros Hin Hnone. simpl in Hnone.
  pose proof (find_none _ _ Hnone _ Hin) as Hneq. simpl in Hneq.
  now rewrite String.eqb_refl in Hneq.
Qed.

(** X9.  The primary model [recommend_model] reports is a configured model
    whose id is the primary id of the rule of the classified tier; it is
    missing exactly when the tier has no primary id or no configured model
    carries it. *)
Theorem primary_model_resolution (config : Config) (task : string) :
  let r := recommend_model config task in
  let rule := tier_rules config (rec_tier r) in
  rec_tier r = tier (classify_details task) /\
  (forall m, rec_model r = Some m ->
             In m (models config) /\ primary rule = Some (id m)) /\
  (rec_model r = None <->
   primary rule = None \/
   exists pid, primary rule = Some pid /\
               forall m, In m (models config) -> id m <> pid).
Proof.
  cbv zeta. unfold recommend_model, tier_rules. cbn [rec_tier rec_model].
  set (rule := match ODict.get _ _ with Some r => r | None => _ end).
  split; [reflexivity|]. split.
  - intros m Hm. now apply find_model_sound.
  - split.
    + intros Hnone. destruct (primary rule) as [pid|]; [right | now left].
      exists pid. split; [reflexivity|].
      intros m Hin Hid. subst pid. now apply (find_model_complete _ _ Hin).
    + intros [-> | [pid [-> Hno]]]; [reflexivity|].
      destruct (find_model (models config) (Some pid)) as [m|] eqn:Hf;
        [|reflexivity].
      apply find_model_sound in Hf. destruct Hf as [Hin [= ->]].
      now destruct (Hno m Hin).
Qed.

Lemma resolvable_find (models : list ModelDescriptor) (fb_id : string) :
  resolvable models fb_id = true <-> exists m, In m models /\ id m = fb_id.
Proof.
  unfold resolvable. split.
  - destruct (find_model models (Some fb_id)) as [m|] eqn:Hf; [|discriminate].
    intros _. apply find_model_sound in Hf. destruct Hf as [Hin [= ->]].
    now exists m.
  - intros [m [Hin <-]].
    destruct (find_model models (Some (id m))) eqn:Hf; [reflexivity|].
    now destruct (find_model_complete _ _ Hin).
Qed.

(** X10.  The fallback [recommend_model] reports is always a configured
    model named in the fallback list of the tier's rule, and it is missing
    exactly when no id of that list names a configured model (in
    particular when the list is empty or the tier has no rule). *)
Theorem fallback_resolution (config : Config) (task : string) :
  let r := recommend_model config task in
  let ids := fallback (tier_rules config (rec_tier r)) in
  (forall m, rec_fallback r = Some m ->
             In m (models config) /\ In (id m) ids) /\
  (rec_fallback r = None <->
   forall fb_id, In fb_id ids -> resolvable (models config) fb_id = false).
Proof.
  cbv zeta. unfold recommend_model, tier_rules. cbn [rec_tier rec_fallback].
  set (rule := match ODict.get _ _ with Some r => r | None => _ end).
  rewrite resolve_fallback_last.
  destruct (find (resolvable (models config)) (rev (fallback rule)))
    as [fb_id|] eqn:Hfind.
  - apply find_some in Hfind. destruct Hfind as [Hin Hres].
    apply in_rev in Hin. split.
    + intros m Hm. apply find_model_sound in Hm.
      destruct Hm as [Hm [= ->]]. now split.
    + split.
      * intros Hnone. unfold resolvable in Hres. rewrite Hnone in Hres.
        discriminate.
      * intros Hall. rewrite (Hall _ Hin) in Hres. discriminate.
  - split; [discriminate|]. split; [|reflexivity].
    intros _ fb_id Hin. apply in_rev in Hin.
    apply (find_none _ _ Hfind _ Hin).
Qed.

(** X11.  When several ids of the fallback list name configured models, the
    one that comes LAST in the list wins: an id followed only by ids that
    name no model decides the fallback. *)
Theorem fallback_last_wins (config : Config) (task : string)
        (before after : list string) (fb_id : string) :
  let r := recommend_model config task in
  fallback (tier_rules config (rec_tier r)) = before ++ fb_id :: after ->
  resolvable (models config) fb_id = true ->
  (forall x, In x after -> resolvable (models config) x = false) ->
  rec_fallback r = find_model (models config) (Some fb_id).
Proof.
  cbv zeta. unfold recommend_model, tier_rules. cbn [rec_tier rec_fallback].
  set (rule := match ODict.get _ _ with Some r => r | None => _ end).
  intros -> Hres Hafter.
  rewrite resolve_fallback_last, rev_app_distr. simpl rev.
  rewrite <- app_assoc. simpl app.
  assert (Hskip : forall l rest,
            (forall x, In x l -> resolvable (models config) x = false) ->
            find (resolvable (models config)) (l ++ rest)
            = find (resolvable (models config)) rest).
  { induction l as [|x l IH]; intros rest Hl; [reflexivity|].
    simpl. rewrite (Hl x (or_introl eq_refl)). apply IH.
    intros y Hy. apply Hl. now right. }
  rewrite Hskip by (intros x Hx; apply Hafter; now apply in_rev).
  simpl. now rewrite Hres.
Qed.

Lemma fallback_last_wins_witness :
  rec_fallback (recommend_model two_fallbacks "check the weather")
  = find_model (models two_fallbacks) (Some (id glm)).
Proof.
  apply (@fallback_last_wins two_fallbacks "check the weather" [id haiku] [] (id glm)).
  - vm_compute. reflexivity.
  - vm_compute. reflexivity.
  - intros x [].
Defined.

(** X12.  [get_default_model] returns a configured model: the one named by
    [default_model] when that is set and not empty (the routing rules are
    then not consulted), else the one named by the primary of the QUALITY
    rule; it returns nothing when no configured model carries that id. *)
Theorem default_model_resolution (config : Config) :
  let wanted :=
    match default_model config with
    | Some (String a s) => Some (String a s)
    | _ => primary (tier_rules config QUALITY)
    end in
  (forall m, get_default_model config = Some m ->
             In m (models config) /\ wanted = Some (id m)) /\
  (forall m, In m (models config) -> wanted = Some (id m) ->
             get_default_model config <> None).
Proof.
  cbv zeta. unfold get_default_model, tier_rules. cbn [tier_str].
  set (rule := match ODict.get "QUALITY" _ with Some r => r | None => _ end).
  assert (E : (if match default_model config with
                  | Some s => PyStr.truthy s | None => false end
               then default_model config else primary rule)
              = match default_model config with
                | Some (String a s) => Some (String a s)
                | _ => primary rule
                end).
  { destruct (default_model config) as [[|a s]|]; reflexivity. }
  rewrite E. split.
  - intros m Hm. now apply find_model_sound.
  - intros m Hin ->. now apply find_model_complete.
Qed.

(** The classified tier is never the internal COMPLEX bucket. *)
Lemma select_or_vision_not_complex (task : string) :
  tier (classify_details task) <> COMPLEX.
Proof.
  destruct (on_vision_path task) eqn:Hv.
  - rewrite (classify_details_vision _ Hv). discriminate.
  - rewrite (tier_scored _ Hv). apply select_tier_not_complex.
Qed.

(** Rounding keeps a non-negative number non-negative. *)
Lemma round_half_even_nonneg (q : Q) : (0 <= q)%Q -> (0 <= round_half_even q)%Z.
Proof.
  intros Hq. unfold round_half_even.
  assert (Hn : (0 <= Qnum q)%Z).
  { unfold Qle in Hq. simpl in Hq. lia. }
  set (n := Qnum q) in *. set (d := Zpos (Qden q)).
  assert (Hd : (0 < d)%Z) by (unfold d; lia).
  assert (Hdiv : (0 <= n / d)%Z) by (apply Z.div_pos; lia).
  destruct (2 * (n mod d) ?= d)%Z; [destruct (Z.even (n / d))| |]; lia.
Qed.

(** X13.  [estimate_cost] reports an error, without raising, exactly when
    the tier has no primary model; otherwise it names the classified tier,
    which is never COMPLEX, and the alias of the primary model, in USD, and
    the cost is not negative when the model's prices are not. *)
Theorem estimate_cost_cases (config : Config) (task : string) :
  let r := recommend_model config task in
  match estimate_cost config task with
  | CostError _ => rec_model r = None
  | Cost t a c cur =>
      exists m, rec_model r = Some m /\ a = alias m /\
                t = tier (classify_details task) /\ t <> COMPLEX /\
                cur = "USD" /\
                ((0 <= input_cost_per_m m)%Q -> (0 <= output_cost_per_m m)%Q ->
                 (0 <= c)%Q)
  end.
Proof.
  cbv zeta. unfold estimate_cost.
  destruct (rec_model (recommend_model config task)) as [m|] eqn:Hm;
    [|reflexivity].
  exists m. split; [reflexivity|]. split; [reflexivity|].
  split; [reflexivity|]. split.
  - change (rec_tier (recommend_model config task))
      with (tier (classify_details task)).
    apply select_or_vision_not_complex.
  - split; [reflexivity|]. intros Hin Hout.
    set (tok := token_estimate (rec_tier (recommend_model config task))).
    assert (Htok : (0 <= fst tok)%Z /\ (0 <= snd tok)%Z).
    { unfold tok. destruct (rec_tier (recommend_model config task)); simpl; lia. }
    destruct Htok as [Hti Hto].
    set (total := (inject_Z (fst tok) / inject_Z 1000000 * input_cost_per_m m
                   + inject_Z (snd tok) / inject_Z 1000000 * output_cost_per_m m)%Q).
    assert (Htotal : (0 <= total)%Q).
    { unfold total.
      assert (Hpos : forall z, (0 <= z)%Z -> (0 <= inject_Z z / inject_Z 1000000)%Q).
      { intros z Hz. unfold Qdiv, Qle. simpl. lia. }
      apply (Qplus_le_compat 0 _ 0 _); apply Qmult_le_0_compat; auto. }
    unfold py_round4, Qle. cbn [Qnum Qden]. rewrite Z.mul_1_r, Z.mul_0_l.
    apply round_half_even_nonneg.
    apply Qmult_le_0_compat; [exact Htotal | discriminate].
Qed.

(* ================================================================== *)
(** ** The troubleshooting-loop detector: further properties *)

(** X14.  The log-based check comes first: when an error line with the same
    key occurs three or more times among the last 200 lines, the detector
    reports a loop with one and the same reason whatever the task and the
    history are. *)
Theorem log_loop_takes_precedence (lines : list string) (key : string) :
  3 <= occurrences key (last_n 200 lines) ->
  exists reason, forall recent task,
    _detect_troubleshooting_loop (LogLines lines) recent task
    = inr (true, Some reason).
Proof.
  intros Hocc.
  destruct (three_occurrences_log_check lines key Hocc) as [reason Hlog].
  exists reason. intros recent task.
  unfold _detect_troubleshooting_loop. now rewrite Hlog.
Qed.

Lemma log_loop_takes_precedence_witness :
  exists reason, forall recent task,
    _detect_troubleshooting_loop
      (LogLines [ ("gateway error" ++ nl)%string; ("all fine" ++ nl)%string;
                  ("  gateway error " ++ nl)%string; "gateway error" ])
      recent task
    = inr (true, Some reason).
Proof.
  apply (@log_loop_takes_precedence _ "gateway error").
  vm_compute. lia.
Defined.

Lemma last_n_app {A} (n : nat) (old recent : list A) :
  n <= List.length recent -> last_n n (old ++ recent) = last_n n recent.
Proof.
  intros Hn. unfold last_n. rewrite length_app, skipn_app.
  rewrite skipn_all2 by lia. simpl. f_equal. lia.
Qed.

(** X15.  Only the last 200 lines of the log count: whatever precedes 200
    or more lines does not change the verdict. *)
Theorem detector_reads_last_200 (old recent_lines recent : list string)
        (task : string) :
  200 <= List.length recent_lines ->
  _detect_troubleshooting_loop (LogLines (old ++ recent_lines)) recent task
  = _detect_troubleshooting_loop (LogLines recent_lines) recent task.
Proof.
  intros Hlen. unfold _detect_troubleshooting_loop, log_check.
  now rewrite (last_n_app old _ Hlen).
Qed.

Lemma detector_reads_last_200_witness :
  _detect_troubleshooting_loop
    (LogLines ([refused_line; refused_line; refused_line]
               ++ repeat ("gateway connected" ++ nl)%string 200))
    [] "check the weather"
  = _detect_troubleshooting_loop
      (LogLines (repeat ("gateway connected" ++ nl)%string 200))
      [] "check the weather".
Proof.
  apply detector_reads_last_200. rewrite repeat_length. lia.
Defined.






(* ================================================================== *)
(** ** The dispatcher: further properties *)

Section DispatchMore.
Variable json_loads : string -> option json.
Variable py_str : json -> string.

(** X18.  A successful normal dispatch returns the routing with the task
    text verbatim, the id of the primary model of the classified tier, the
    session target, and the label when one is given and not empty; it never
    marks the result as a FACEPALM diagnosis. *)
Theorem spawn_agent_routed_params
        (config : Config) (log : LogFile) (facepalm_exists : bool)
        (facepalm_run : proc) (self : Router)
        (task session_target : string) (label : option string)
        (m : ModelDescriptor) :
  on_normal_path json_loads log facepalm_exists facepalm_run self task = true ->
  rec_model (recommend_model config task) = Some m ->
  exists params,
    fst (spawn_agent json_loads py_str config log facepalm_exists facepalm_run
                     self task session_target label)
    = inr (Routed params (recommend_model config task)) /\
    ODict.get "task" params = Some (JStr task) /\
    ODict.get "model" params = Some (JStr (id m)) /\
    ODict.get "sessionTarget" params = Some (JStr session_target) /\
    ODict.get "label" params
    = match label with
      | Some l => if PyStr.truthy l then Some (JStr l) else None
      | None => None
      end /\
    ODict.get "facepalm_invoked" params = None.
Proof.
  unfold on_normal_path, spawn_agent.
  set (rcm := recommend_model config task). clearbody rcm.
  destruct (_detect_troubleshooting_loop log (recent_tasks self) task)
    as [e0|[is_loop loop_reason]]; [discriminate|].
  intros Hnormal Hm.
  assert (Hpath : (is_loop && Py.truthy
                     (fst (if is_loop
                           then _invoke_facepalm json_loads facepalm_exists facepalm_run
                           else (JNull, None)))) = false).
  { destruct is_loop; [|reflexivity]. now apply negb_true_iff in Hnormal. }
  destruct (if is_loop
            then _invoke_facepalm json_loads facepalm_exists facepalm_run
            else (JNull, None)) as [diagnosis error].
  cbn [fst] in Hpath. rewrite Hpath. cbv zeta. rewrite Hm.
  eexists. split; [reflexivity|].
  destruct label as [l|]; [destruct (PyStr.truthy l)|]; repeat split; reflexivity.
Qed.

(** X19.  When a loop is detected and FACEPALM returns a diagnosis, the
    dispatcher does no routing: the router (history and standard error) is
    left untouched, and the result is the diagnosis on the CODE tier with the
    fixed Codex model, marked [facepalm_invoked], unless the diagnosis is
    not a JSON object, in which case the call raises AttributeError. *)
Theorem spawn_agent_diagnosis_path
        (config : Config) (log : LogFile) (facepalm_exists : bool)
        (facepalm_run : proc) (self : Router)
        (task session_target : string) (label : option string) :
  on_diagnosis_path json_loads log facepalm_exists facepalm_run self task = true ->
  let out := spawn_agent json_loads py_str config log facepalm_exists
                         facepalm_run self task session_target label in
  let diagnosis := fst (_invoke_facepalm json_loads facepalm_exists facepalm_run) in
  snd out = self /\
  match diagnosis with
  | JObj _ =>
      exists params,
        fst out = inr (Diagnosed params CODE codex "Codex-5.3" diagnosis) /\
        ODict.get "model" params = Some (JStr codex) /\
        ODict.get "sessionTarget" params = Some (JStr session_target) /\
        ODict.get "facepalm_invoked" params = Some (JBool true) /\
        ODict.get "label" params = None
  | _ => fst out = inl AttributeError
  end.
Proof.
  unfold on_diagnosis_path, spawn_agent.
  destruct (_detect_troubleshooting_loop log (recent_tasks self) task)
    as [e0|[is_loop loop_reason]]; [discriminate|].
  destruct is_loop; [|discriminate].
  destruct (_invoke_facepalm json_loads facepalm_exists facepalm_run)
    as [diagnosis error].
  cbn [fst andb]. intros Hloop. rewrite Hloop. cbv zeta.
  split; [reflexivity|].
  destruct diagnosis; try reflexivity.
  cbn [Py.get Py.bind fst].
  eexists. split; [reflexivity|]. repeat split; reflexivity.
Qed.

(** X20.  The warning on standard error is written exactly when a loop was
    detected and FACEPALM gave no usable diagnosis: one line in that case,
    none in any other (a raising loop detection included). *)
Theorem spawn_agent_warning
        (config : Config) (log : LogFile) (facepalm_exists : bool)
        (facepalm_run : proc) (self : Router)
        (task session_target : string) (label : option string) :
  let out := spawn_agent json_loads py_str config log facepalm_exists
                         facepalm_run self task session_target label in
  exists warning,
    stderr_out (snd out)
    = stderr_out self
      ++ (if facepalm_failed json_loads log facepalm_exists facepalm_run self task
          then [warning] else []).
Proof.
  unfold facepalm_failed, spawn_agent.
  set (rcm := recommend_model config task). clearbody rcm.
  destruct (_detect_troubleshooting_loop log (recent_tasks self) task)
    as [e0|[is_loop loop_reason]];
    [exists ""; cbn [snd]; now rewrite app_nil_r|].
  destruct is_loop.
  - destruct (_invoke_facepalm json_loads facepalm_exists facepalm_run)
      as [diagnosis error].
    cbn [fst andb]. destruct (Py.truthy diagnosis); cbn [negb].
    + exists "". cbv zeta. cbn [snd]. now rewrite app_nil_r.
    + eexists. cbv zeta. destruct (rec_model rcm); cbn [snd stderr_out]; reflexivity.
  - exists "". cbn [andb]. cbv zeta iota beta.
    destruct (rec_model rcm); cbn [snd stderr_out]; now rewrite app_nil_r.
Qed.

(** X21.  Dispatching keeps the history within ten entries: whatever the
    path taken, a history of at most ten tasks stays one. *)
Theorem spawn_agent_history_bounded
        (config : Config) (log : LogFile) (facepalm_exists : bool)
        (facepalm_run : proc) (self : Router)
        (task session_target : string) (label : option string) :
  List.length (recent_tasks self) <= 10 ->
  List.length
    (recent_tasks
       (snd (spawn_agent json_loads py_str config log facepalm_exists
                         facepalm_run self task session_target label))) <= 10.
Proof.
  intros Hlen. unfold spawn_agent.
  set (rcm := recommend_model config task). clearbody rcm.
  destruct (_detect_troubleshooting_loop log (recent_tasks self) task)
    as [e0|[is_loop loop_reason]]; [exact Hlen|].
  destruct (if is_loop
            then _invoke_facepalm json_loads facepalm_exists facepalm_run
            else (JNull, None)) as [diagnosis error].
  destruct (is_loop && Py.truthy diagnosis); [exact Hlen|].
  cbv zeta.
  destruct (rec_model rcm); cbn [snd recent_tasks];
    [|destruct is_loop; exact Hlen].
  destruct is_loop; cbn [recent_tasks]; apply track_bounded.
Qed.


End DispatchMore.

Lemma spawn_agent_routed_params_witness :
  exists params,
    fst (spawn_agent MiniJson.loads no_str two_fallbacks LogAbsent false
                     TimeoutExpired fresh "Check the Weather" "isolated" (Some ""))
    = inr (Routed params (recommend_model two_fallbacks "Check the Weather")) /\
    ODict.get "task" params = Some (JStr "Check the Weather") /\
    ODict.get "model" params = Some (JStr (id flash)) /\
    ODict.get "sessionTarget" params = Some (JStr "isolated") /\
    ODict.get "label" params
    = (if PyStr.truthy "" then Some (JStr "") else None) /\
    ODict.get "facepalm_invoked" params = None.
Proof.
  apply (@spawn_agent_routed_params MiniJson.loads no_str two_fallbacks LogAbsent
           false TimeoutExpired fresh "Check the Weather" "isolated" (Some "") flash);
    vm_compute; reflexivity.
Defined.

Lemma spawn_agent_diagnosis_path_witness :
  let out := spawn_agent MiniJson.loads no_str two_fallbacks
                         (LogLines [refused_line; refused_line]) true diagnosed_run
                         busy "fix it" "isolated" None in
  snd out = busy /\
  exists params,
    fst out = inr (Diagnosed params CODE codex "Codex-5.3"
                             (JObj [("diagnosis", JStr "token mismatch")])) /\
    ODict.get "model" params = Some (JStr codex) /\
    ODict.get "sessionTarget" params = Some (JStr "isolated") /\
    ODict.get "facepalm_invoked" params = Some (JBool true) /\
    ODict.get "label" params = None.
Proof.
  apply (@spawn_agent_diagnosis_path MiniJson.loads no_str two_fallbacks
           (LogLines [refused_line; refused_line]) true diagnosed_run
           busy "fix it" "isolated" None).
  vm_compute. reflexivity.
Defined.

Lemma spawn_agent_history_bounded_witness :
  List.length
    (recent_tasks
       (snd (spawn_agent MiniJson.loads no_str two_fallbacks LogAbsent false
                         TimeoutExpired busy "check the weather" "isolated" None)))
  <= 10.
Proof.
  apply spawn_agent_history_bounded. vm_compute. lia.
Defined.

(** X22.  A full history drops its oldest task when a new one is tracked;
    a shorter one only grows. *)
Theorem track_evicts_oldest (task : string) (recent : list string) :
  List.length recent <= 10 ->
  track task recent
  = (if List.length recent =? 10 then tl recent else recent)
    ++ [PyStr.strip (PyStr.lower task)].
Proof.
  intros Hlen. unfold track, last_n. rewrite length_app. cbn [List.length].
  destruct (Nat.eqb_spec (List.length recent) 10) as [E|E].
  - rewrite E. destruct recent as [|x recent]; [discriminate|].
    reflexivity.
  - replace (List.length recent + 1 - 10) with 0 by lia. reflexivity.
Qed.

Lemma track_evicts_oldest_witness :
  track "Check the Weather " (recent_tasks busy)
  = (if List.length (recent_tasks busy) =? 10
     then tl (recent_tasks busy) else recent_tasks busy)
    ++ [PyStr.strip (PyStr.lower "Check the Weather ")].
Proof.
  apply track_evicts_oldest. vm_compute. lia.
Defined.

(* ================================================================== *)
(** ** The gateway configuration: further properties *)

Lemma eq_str_true (v : json) (s : string) : Py.eq_str v s = true -> v = JStr s.
Proof.
  destruct v; simpl; try discriminate. intros H.
  apply String.eqb_eq in H. now subst.
Qed.

Ltac gateway_out H :=
  injection H as H; subst;
  repeat split;
  try (intros k v Hin; simpl in Hin;
       repeat (destruct Hin as [Hin | Hin];
               [injection Hin as Hk _; subst k; simpl; tauto|]);
       now destruct Hin);
  try (repeat constructor; simpl; intuition discriminate);
  try (intros [Ha Hb]; simpl in Ha, Hb; congruence);
  try (simpl; intros v [= <-]; eexists; reflexivity);
  try (simpl; congruence);
  try (simpl; discriminate).

(** A returned gateway configuration holds gateway keys only, each at most
    once. *)
Lemma gateway_config_keys (json_loads : string -> option json)
      (file : ConfigFile) (out : ODict.t) :
  get_openclaw_gateway_config json_loads file = inr out ->
  (forall k v, In (k, v) out -> In k gateway_keys) /\
  NoDup (ODict.keys out).
Proof.
  unfold get_openclaw_gateway_config.
  destruct file as [| | |text];
    [intros H; gateway_out H | intros H; gateway_out H | discriminate |].
  destruct (json_loads text) as [data|]; [|intros H; gateway_out H].
  destruct (Py.get data "gateway" JNull) as [e|g]; [discriminate|].
  cbn [Py.bind].
  destruct (Py.get (Py.or g (JObj [])) "auth" JNull) as [e|a]; [discriminate|].
  cbn [Py.bind].
  destruct (Py.get (Py.or a (JObj [])) "mode" JNull) as [e|auth_mode];
    [discriminate|].
  cbn [Py.bind].
  destruct (Py.eq_str auth_mode "token") eqn:Et;
    destruct (Py.eq_str auth_mode "password") eqn:Ep.
  - apply eq_str_true in Et, Ep. subst. discriminate.
  - apply eq_str_true in Et. subst auth_mode.
    destruct (Py.get (Py.or a (JObj [])) "token" JNull) as [e|token];
      [discriminate|].
    cbn [Py.bind].
    destruct (Py.get (Py.or g (JObj [])) "port" JNull) as [e|port];
      [discriminate|].
    cbn [Py.bind orb Py.truthy].
    destruct (Py.truthy token); destruct (Py.is_none port);
      try (destruct (Py.int port) as [e|p]; [discriminate|]; cbn [Py.bind]);
      intros H; gateway_out H.
  - apply eq_str_true in Ep. subst auth_mode.
    destruct (Py.get (Py.or a (JObj [])) "password" JNull) as [e|password];
      [discriminate|].
    cbn [Py.bind].
    destruct (Py.get (Py.or g (JObj [])) "port" JNull) as [e|port];
      [discriminate|].
    cbn [Py.bind orb Py.truthy].
    destruct (Py.truthy password); destruct (Py.is_none port);
      try (destruct (Py.int port) as [e|p]; [discriminate|]; cbn [Py.bind]);
      intros H; gateway_out H.
  - cbn [Py.bind].
    destruct (Py.get (Py.or g (JObj [])) "port" JNull) as [e|port];
      [discriminate|].
    cbn [Py.bind orb Py.truthy].
    destruct (Py.is_none port);
      try (destruct (Py.int port) as [e|p]; [discriminate|]; cbn [Py.bind]);
      intros H; gateway_out H.
Qed.

(** X24.  Whatever [openclaw.json] holds, a gateway configuration that is
    returned contains only the four gateway keys, each at most once; it
    never holds a token and a password together; a token comes with the
    auth mode "token" and a password with the auth mode "password"; and
    the port, when present, is an integer. *)
Theorem gateway_config_shape (json_loads : string -> option json)
        (file : ConfigFile) (out : ODict.t) :
  get_openclaw_gateway_config json_loads file = inr out ->
  (forall k v, In (k, v) out -> In k gateway_keys) /\
  NoDup (ODict.keys out) /\
  ~ (ODict.get "gatewayToken" out <> None /\
     ODict.get "gatewayPassword" out <> None) /\
  (forall v, ODict.get "gatewayPort" out = Some v -> exists z, v = JInt z) /\
  (ODict.get "gatewayToken" out <> None ->
   ODict.get "gatewayAuthMode" out = Some (JStr "token")) /\
  (ODict.get "gatewayPassword" out <> None ->
   ODict.get "gatewayAuthMode" out = Some (JStr "password")).
Proof.
  intros Hcfg. destruct (gateway_config_keys _ _ Hcfg) as [Hkeys Hnd].
  split; [exact Hkeys|]. split; [exact Hnd|]. clear Hkeys Hnd. revert Hcfg.
  unfold get_openclaw_gateway_config.
  destruct file as [| | |text];
    [intros H; gateway_out H | intros H; gateway_out H | discriminate |].
  destruct (json_loads text) as [data|]; [|intros H; gateway_out H].
  destruct (Py.get data "gateway" JNull) as [e|g]; [discriminate|].
  cbn [Py.bind].
  destruct (Py.get (Py.or g (JObj [])) "auth" JNull) as [e|a]; [discriminate|].
  cbn [Py.bind].
  destruct (Py.get (Py.or a (JObj [])) "mode" JNull) as [e|auth_mode];
    [discriminate|].
  cbn [Py.bind].
  destruct (Py.eq_str auth_mode "token") eqn:Et;
    destruct (Py.eq_str auth_mode "password") eqn:Ep.
  - apply eq_str_true in Et, Ep. subst. discriminate.
  - apply eq_str_true in Et. subst auth_mode.
    destruct (Py.get (Py.or a (JObj [])) "token" JNull) as [e|token];
      [discriminate|].
    cbn [Py.bind].
    destruct (Py.get (Py.or g (JObj [])) "port" JNull) as [e|port];
      [discriminate|].
    cbn [Py.bind orb Py.truthy].
    destruct (Py.truthy token); destruct (Py.is_none port);
      try (destruct (Py.int port) as [e|p]; [discriminate|]; cbn [Py.bind]);
      intros H; gateway_out H.
  - apply eq_str_true in Ep. subst auth_mode.
    destruct (Py.get (Py.or a (JObj [])) "password" JNull) as [e|password];
      [discriminate|].
    cbn [Py.bind].
    destruct (Py.get (Py.or g (JObj [])) "port" JNull) as [e|port];
      [discriminate|].
    cbn [Py.bind orb Py.truthy].
    destruct (Py.truthy password); destruct (Py.is_none port);
      try (destruct (Py.int port) as [e|p]; [discriminate|]; cbn [Py.bind]);
      intros H; gateway_out H.
  - cbn [Py.bind].
    destruct (Py.get (Py.or g (JObj [])) "port" JNull) as [e|port];
      [discriminate|].
    cbn [Py.bind orb Py.truthy].
    destruct (Py.is_none port);
      try (destruct (Py.int port) as [e|p]; [discriminate|]; cbn [Py.bind]);
      intros H; gateway_out H.
Qed.

Lemma gateway_config_shape_witness :
  let out := [("gatewayToken", JStr "abc"); ("gatewayAuthMode", JStr "token");
              ("gatewayPort", JInt 18789)] in
  (forall k v, In (k, v) out -> In k gateway_keys) /\
  NoDup (ODict.keys out) /\
  ~ (ODict.get "gatewayToken" out <> None /\
     ODict.get "gatewayPassword" out <> None) /\
  (forall v, ODict.get "gatewayPort" out = Some v -> exists z, v = JInt z) /\
  (ODict.get "gatewayToken" out <> None ->
   ODict.get "gatewayAuthMode" out = Some (JStr "token")) /\
  (ODict.get "gatewayPassword" out <> None ->
   ODict.get "gatewayAuthMode" out = Some (JStr "password")).
Proof.
  apply (@gateway_config_shape MiniJson.loads (FileContent token_config)).
  vm_compute. reflexivity.
Defined.

Section UpdateFacts.
Context {K V : Type} `{EqKeyOk K}.

Lemma get_app (k : K) (d e : ODict.t (K:=K) (V:=V)) :
  ODict.get k (d ++ e) =
  match ODict.get k d with Some v => Some v | None => ODict.get k e end.
Proof.
  induction d as [|[k' v'] d IH]; simpl; [reflexivity|].
  destruct (keq k k'); [reflexivity | exact IH].
Qed.

(** [d.update(e)]: the last value [e] gives to a key wins, and keys that
    [e] does not mention keep their value. *)
Lemma get_update (k : K) (d e : ODict.t (K:=K) (V:=V)) :
  ODict.get k (ODict.update d e) =
  match ODict.get k (rev e) with
  | Some v => Some v
  | None => ODict.get k d
  end.
Proof.
  unfold ODict.update. revert d.
  induction e as [|[k0 v0] e IH]; intros d; [reflexivity|].
  cbn [fold_left fst snd rev]. rewrite IH, get_app.
  destruct (ODict.get k (rev e)); [reflexivity|].
  cbn [ODict.get]. destruct (keq k k0) eqn:E.
  - apply keq_spec in E. subst k0. apply get_set_same.
  - apply get_set_other. intros ->. now rewrite keq_refl in E.
Qed.

Lemma In_get (k : K) (v : V) (d : ODict.t) :
  NoDup (ODict.keys d) -> In (k, v) d -> ODict.get k d = Some v.
Proof.
  unfold ODict.keys. induction d as [|[k' v'] d IH]; simpl; [tauto|].
  intros Hnd. inversion Hnd as [|? ? Hnotin Hnd']; subst.
  intros [[= -> ->] | Hin].
  - now rewrite keq_refl.
  - destruct (keq k k') eqn:E; [|now apply IH].
    apply keq_spec in E. subst k'.
    exfalso. apply Hnotin. now apply (in_map fst) in Hin.
Qed.

Lemma get_rev (k : K) (d : ODict.t (K:=K) (V:=V)) :
  NoDup (ODict.keys d) -> ODict.get k (rev d) = ODict.get k d.
Proof.
  intros Hnd.
  assert (Hnd' : NoDup (ODict.keys (rev d))).
  { unfold ODict.keys in *. rewrite map_rev. now apply NoDup_rev. }
  destruct (ODict.get k d) as [v|] eqn:G.
  - apply In_get; [exact Hnd'|]. apply -> in_rev. now apply get_In.
  - destruct (ODict.get k (rev d)) as [v|] eqn:G'; [|reflexivity].
    apply get_In in G'. apply in_rev in G'.
    rewrite (@In_get k v d Hnd G') in G. discriminate.
Qed.

End UpdateFacts.

(** X25.  The [spawn --json] output is the spawn parameters with the gateway
    configuration merged in: each gateway key carries what the configuration
    gives it (nothing when the configuration has none), and every other key,
    the task, the model and the session target among them, keeps the value
    [spawn_agent] gave it. *)
Theorem spawn_json_merges_gateway_config
        (json_loads : string -> option json) (py_str : json -> string)
        (config : Config) (log : LogFile) (facepalm_exists : bool)
        (facepalm_run : proc) (self : Router)
        (task session_target : string) (label : option string)
        (result : SpawnResult) (file : ConfigFile) (gateway_config : ODict.t) :
  fst (spawn_agent json_loads py_str config log facepalm_exists facepalm_run
                   self task session_target label) = inr result ->
  get_openclaw_gateway_config json_loads file = inr gateway_config ->
  exists out,
    main_spawn_json json_loads result file = inr out /\
    (forall k, In k gateway_keys ->
               ODict.get k out = ODict.get k gateway_config) /\
    (forall k, ~ In k gateway_keys ->
               ODict.get k out = ODict.get k (result_params result)).
Proof.
  intros Hres Hcfg. unfold main_spawn_json. rewrite Hcfg. cbn [Py.bind].
  eexists. split; [reflexivity|].
  destruct (gateway_config_keys _ _ Hcfg) as [Hkeys Hnd].
  split.
  - intros k Hk. rewrite get_update, (@get_rev _ _ _ _ k gateway_config Hnd).
    destruct (ODict.get k gateway_config); [reflexivity|].
    eapply spawn_params_no_gateway_key; eassumption.
  - intros k Hk. rewrite get_update, (@get_rev _ _ _ _ k gateway_config Hnd).
    destruct (ODict.get k gateway_config) as [v|] eqn:G; [|reflexivity].
    apply get_In in G. now destruct (Hk (Hkeys _ _ G)).
Qed.

Lemma spawn_json_merges_gateway_config_witness :
  let result := Routed [("task", JStr "check the weather");
                        ("model", JStr (id flash));
                        ("sessionTarget", JStr "isolated")]
                       (recommend_model two_fallbacks "check the weather") in
  let gateway_config :=
    [("gatewayToken", JStr "abc"); ("gatewayAuthMode", JStr "token");
     ("gatewayPort", JInt 18789)] in
  exists out,
    main_spawn_json MiniJson.loads result (FileContent token_config) = inr out /\
    (forall k, In k gateway_keys ->
               ODict.get k out = ODict.get k gateway_config) /\
    (forall k, ~ In k gateway_keys ->
               ODict.get k out = ODict.get k (result_params result)).
Proof.
  apply (@spawn_json_merges_gateway_config MiniJson.loads no_str two_fallbacks
           LogAbsent false TimeoutExpired fresh "check the weather" "isolated" None).
  - vm_compute. reflexivity.
  - vm_compute. reflexivity.
Defined.

(* ================================================================== *)
(** ** The watchdog: further properties *)

Section WatchdogMore.
Import Watchdog.
Variable json_loads : string -> option json.

(** X26.  When the status command answers with JSON that is neither [null]
    nor an object (an array, a number, a string, a boolean), the tick ends
    with AttributeError right after the status check: no recovery command
    is run and nothing further is logged. *)
Theorem tick_non_object_raises (w : World) (result : json) :
  snd (check_status json_loads w) = inr result ->
  not_a_status result ->
  tick json_loads w = (fst (check_status json_loads w), inl AttributeError).
Proof.
  intros Hres Hshape. unfold tick, bind.
  destruct (check_status json_loads w) as [tr r]. cbn [fst snd] in *. subst r.
  destruct result; try contradiction; cbn [Py.is_none lift Py.get];
    now rewrite app_nil_r.
Qed.


(** X28.  A recovery whose status and ensure commands end or time out
    attempts the launch of the gateway, after logging a timed-out ensure; it
    returns normally, ending with the log of the launch or of the missing
    executable, when [Popen] starts the process or does not find
    [openclaw]; any other error of [Popen] (PermissionError and the like) is
    not caught: it escapes with nothing logged after the attempt.  An
    exception other than a timeout from the status or the ensure command
    escapes too, and the launch is not attempted. *)
Theorem run_recovery_outcomes (w : World) :
  let r := run_recovery w in
  (passes (recovery_status_run w) -> passes (ensure_run w) ->
   In (Popen gateway_cmd) (fst r) /\
   match gateway_launch w with
   | Launched =>
       snd r = inr tt /\ last (fst r) (Popen []) = Log StartedGateway
   | LaunchNotFound =>
       snd r = inr tt /\ last (fst r) (Popen []) = Log OpenclawNotFound
   | LaunchError msg =>
       snd r = inl (OtherError msg) /\ last (fst r) (Popen []) = Popen gateway_cmd
   end /\
   (ensure_run w = TimeoutExpired -> In (Log EnsureTimedOut) (fst r))) /\
  (~ (passes (recovery_status_run w) /\ passes (ensure_run w)) ->
   (exists e, snd r = inl e) /\ ~ In (Popen gateway_cmd) (fst r)).
Proof.
  cbv zeta. unfold run_recovery.
  destruct (recovery_status_run w) as [rc1 out1 err1| |msg1|msg1];
    destruct (ensure_run w) as [rc2 out2 err2| |msg2|msg2];
    try destruct (PyStr.truthy out2) eqn:Ht;
    destruct (gateway_launch w) as [| |msg];
    unfold passes, _run, catch, bind, emit, ret, raise;
    cbn [snd app fst]; try rewrite Ht; cbn [app fst snd last In];
    (split;
     [ intros; try contradiction;
       repeat split; try reflexivity; try discriminate;
       try (intros _); simpl; tauto
     | intros Hn;
       first [ exfalso; apply Hn; split; exact I
             | split; [eexists; reflexivity | simpl; intuition discriminate] ] ]).
Qed.

End WatchdogMore.

Lemma tick_non_object_raises_witness :
  Watchdog.tick MiniJson.loads (status_world 0 "[1, 2]")
  = (fst (Watchdog.check_status MiniJson.loads (status_world 0 "[1, 2]")),
     inl AttributeError).
Proof.
  apply (@tick_non_object_raises MiniJson.loads (status_world 0 "[1, 2]")
           (JArr [JInt 1; JInt 2])).
  - vm_compute. reflexivity.
  - exact I.
Defined.

Section WatchdogLoopFacts.
Import Watchdog WatchdogLoop.
Variable json_loads : string -> option json.

Lemma sleep_slices_none (n slept : nat) :
  sleep_slices n slept None = repeat Sleep n.
Proof.
  revert slept. induction n as [|n IH]; intros slept; [reflexivity|].
  cbn [sleep_slices shutdown_seen repeat]. now rewrite IH.
Qed.

Lemma sleep_slices_some (n slept j : nat) :
  sleep_slices n slept (Some j) = repeat Sleep (Nat.min n (j - slept)).
Proof.
  revert slept. induction n as [|n IH]; intros slept; [reflexivity|].
  cbn [sleep_slices shutdown_seen].
  destruct (Nat.leb_spec j slept) as [Hle|Hgt].
  - replace (j - slept) with 0 by lia. now rewrite Nat.min_0_r.
  - rewrite IH. replace (j - slept) with (S (j - S slept)) by lia.
    reflexivity.
Qed.

Lemma loop_until_signal (before : list Turn) (t : Turn) (j : nat)
      (later : list Turn) :
  (forall u, In u before -> sigterm u = None /\ tick_ok json_loads u) ->
  sigterm t = Some j -> j <= INTERVAL_SEC -> tick_ok json_loads t ->
  loop json_loads (before ++ t :: later)
  = (quiet_turns json_loads before ++ tick_events json_loads t ++ repeat Sleep j, Stopped).
Proof.
  intros Hbefore Hsig Hj Hok.
  induction before as [|u before IH].
  - unfold quiet_turns; cbn [app loop map concat].
    unfold tick_ok, tick_events in *.
    destruct (tick json_loads (world t)) as [tr r]. cbn [fst snd] in *. subst r.
    rewrite Hsig. cbn [shutdown_seen].
    apply Nat.leb_le in Hj. rewrite Hj.
    rewrite sleep_slices_some. apply Nat.leb_le in Hj.
    replace (Nat.min INTERVAL_SEC (j - 0)) with j by lia. reflexivity.
  - destruct (Hbefore u (or_introl eq_refl)) as [Hnone Huok].
    cbn [app loop]. unfold quiet_turns. cbn [map concat].
    fold (quiet_turns json_loads before).
    unfold tick_ok, tick_events in Huok |- *.
    destruct (tick json_loads (world u)) as [tr r]. cbn [fst snd] in *. subst r.
    rewrite Hnone. cbn [shutdown_seen].
    rewrite IH by (intros u' Hu'; apply Hbefore; now right).
    rewrite sleep_slices_none. now rewrite <- !app_assoc.
Qed.

(** X29.  The watchdog stops at the first turn in which SIGTERM is seen:
    every turn before it runs its tick and then sleeps the full interval of
    ten seconds, the turn of the signal runs its tick and sleeps only the
    seconds that passed before the flag was set, no later tick is run, and
    the stop is logged. *)
Theorem main_stops_on_signal (before : list Turn) (t : Turn) (j : nat)
        (later : list Turn) :
  (forall u, In u before -> sigterm u = None /\ tick_ok json_loads u) ->
  sigterm t = Some j -> j <= INTERVAL_SEC -> tick_ok json_loads t ->
  main json_loads false (before ++ t :: later)
  = (LogStarted :: quiet_turns json_loads before ++ tick_events json_loads t
                ++ repeat Sleep j ++ [LogStopped],
     Stopped).
Proof.
  intros Hbefore Hsig Hj Hok. unfold main.
  rewrite (@loop_until_signal before t j later Hbefore Hsig Hj Hok).
  now rewrite <- !app_assoc.
Qed.

(** X30.  An exception that escapes a tick ends [main] at once: the turns
    before it are as usual, nothing is slept or logged after the failing
    tick, and the stop is not logged. *)
Theorem main_ends_on_exception (before : list Turn) (t : Turn) (e : exn)
        (later : list Turn) :
  (forall u, In u before -> sigterm u = None /\ tick_ok json_loads u) ->
  snd (tick json_loads (world t)) = inl e ->
  main json_loads false (before ++ t :: later)
  = (LogStarted :: quiet_turns json_loads before ++ tick_events json_loads t, Raised e).
Proof.
  intros Hbefore Hraise. unfold main.
  assert (Hloop : loop json_loads (before ++ t :: later)
                  = (quiet_turns json_loads before ++ tick_events json_loads t, Raised e)).
  { induction before as [|u before IH].
    - unfold quiet_turns; cbn [app loop map concat]. unfold tick_events.
      destruct (tick json_loads (world t)) as [tr r]. cbn [fst snd] in *.
      now subst r.
    - destruct (Hbefore u (or_introl eq_refl)) as [Hnone Huok].
      cbn [app loop]. unfold quiet_turns. cbn [map concat].
      fold (quiet_turns json_loads before).
      unfold tick_ok, tick_events in Huok |- *.
      destruct (tick json_loads (world u)) as [tr r]. cbn [fst snd] in *. subst r.
      rewrite Hnone. cbn [shutdown_seen].
      rewrite IH by (intros u' Hu'; apply Hbefore; now right).
      rewrite sleep_slices_none. now rewrite <- !app_assoc. }
  rewrite Hloop. now rewrite app_nil_r.
Qed.

End WatchdogLoopFacts.

Lemma main_stops_on_signal_witness :
  WatchdogLoop.main MiniJson.loads false
    ([calm_turn None; calm_turn None] ++ calm_turn (Some 3) :: [broken_turn])
  = (WatchdogLoop.LogStarted
       :: WatchdogLoop.quiet_turns MiniJson.loads [calm_turn None; calm_turn None]
       ++ WatchdogLoop.tick_events MiniJson.loads (calm_turn (Some 3))
       ++ repeat WatchdogLoop.Sleep 3 ++ [WatchdogLoop.LogStopped],
     WatchdogLoop.Stopped).
Proof.
  apply (@main_stops_on_signal MiniJson.loads [calm_turn None; calm_turn None]
           (calm_turn (Some 3)) 3 [broken_turn]).
  - intros u [<- | [<- | []]]; split; vm_compute; reflexivity.
  - reflexivity.
  - vm_compute. lia.
  - vm_compute. reflexivity.
Defined.

Lemma main_ends_on_exception_witness :
  WatchdogLoop.main MiniJson.loads false
    ([calm_turn None] ++ broken_turn :: [calm_turn (Some 0)])
  = (WatchdogLoop.LogStarted
       :: WatchdogLoop.quiet_turns MiniJson.loads [calm_turn None]
       ++ WatchdogLoop.tick_events MiniJson.loads broken_turn,
     WatchdogLoop.Raised AttributeError).
Proof.
  apply (@main_ends_on_exception MiniJson.loads [calm_turn None] broken_turn
           AttributeError [calm_turn (Some 0)]).
  - intros u [<- | []]; split; vm_compute; reflexivity.
  - vm_compute. reflexivity.
Defined.
